(** * DAGstatus: the status-file tokenizer and block parser of htcondenser

    A shallow embedding of [htcondenser/exe/DAGstatus.py] (Python 2) and
    the properties of its tokenizer ([interpret_line]), its block parser
    ([process]) and its record classes ([DagStatus], [NodeStatus],
    [StatusEnd]).

    Python [str] values are lists of characters, the [contents] dictionary
    is a finite map, exceptions are an explicit result type, and the
    floats of the percentage fields are IEEE binary64 numbers. *)

From Stdlib Require Import ZArith List Ascii String Bool Lia DecimalString
  DecimalN.
From Stdlib Require Import Floats.SpecFloat.
From stdpp Require Import base option list gmap strings.

Local Open Scope bool_scope.
Local Open Scope list_scope.

(** ** Python values *)

(** A Python 2 [str]: a sequence of 8-bit characters. *)
Abbreviation str := (list ascii).

(** String literals of the source. *)
Definition txt (s : string) : str := list_ascii_of_string s.

(** The exceptions the program can raise. [KeyError] carries its argument:
    the missing dictionary key, or the message of the explicit [raise]. *)
Inductive exn : Type :=
  | IndexError
  | KeyError (arg : str)
  | ValueError
  | ZeroDivisionError
  | OverflowError
  | AttributeError
  | IOError.

(** The outcome of a call: a value, or a raised exception. *)
Inductive result (A : Type) : Type :=
  | Ok (a : A)
  | Raise (e : exn).
Arguments Ok {A} a.
Arguments Raise {A} e.

#[global] Instance result_ret : MRet result := fun A a => Ok a.
#[global] Instance result_bind : MBind result := fun A B f m =>
  match m with
  | Ok a => f a
  | Raise e => Raise e
  end.

(** ** The [str] methods the program uses *)

Module Py.

Definition nl : ascii := "010"%char.
Definition dquote : ascii := "034"%char.

(** Whitespace of [str.strip()] on a Python 2 byte string:
    tab, newline, vertical tab, form feed, carriage return, space. *)
Definition isspace (c : ascii) : bool :=
  let n := nat_of_ascii c in
  (Nat.leb 9 n && Nat.leb n 13) || Nat.eqb n 32.

(** [s.startswith(prefix)] *)
Fixpoint startswith (s prefix : str) {struct prefix} : bool :=
  match prefix with
  | [] => true
  | a :: prefix' =>
      match s with
      | [] => false
      | c :: s' => Ascii.eqb c a && startswith s' prefix'
      end
  end.

(** [sub in s] *)
Fixpoint contains (s sub : str) : bool :=
  startswith s sub ||
  match s with
  | [] => false
  | _ :: t => contains t sub
  end.

(** The left-to-right scan of [str.replace] for a non-empty [old]:
    [skip] counts the characters of a match still to be dropped. *)
Fixpoint replace_from (old new : str) (skip : nat) (s : str) : str :=
  match s with
  | [] => []
  | c :: t =>
      match skip with
      | S k => replace_from old new k t
      | O =>
          if startswith s old
          then new ++ replace_from old new (Nat.pred (length old)) t
          else c :: replace_from old new 0 t
      end
  end.

(** [s.replace(old, new)]: every non-overlapping occurrence, leftmost
    first; an empty [old] matches before every character and at the
    end. *)
Definition replace (s old new : str) : str :=
  match old with
  | [] => new ++ flat_map (fun c => c :: new) s
  | _ :: _ => replace_from old new 0 s
  end.

(** [s.split(sep)] for a one-character separator: never an empty list. *)
Fixpoint split (s : str) (sep : ascii) : list str :=
  match s with
  | [] => [[]]
  | c :: t =>
      if Ascii.eqb c sep then [] :: split t sep
      else match split t sep with
           | h :: r => (c :: h) :: r
           | [] => [[c]]
           end
  end.

Fixpoint lstrip (s : str) : str :=
  match s with
  | [] => []
  | c :: t => if isspace c then lstrip t else s
  end.

Definition rstrip (s : str) : str := rev (lstrip (rev s)).

(** [s.strip()] *)
Definition strip (s : str) : str := rstrip (lstrip s).

(** [s.split()]: the maximal runs of non-whitespace characters;
    [cur] is the run being read, most recent character first. *)
Fixpoint split_ws_from (cur : option str) (s : str) : list str :=
  match s with
  | [] => match cur with Some w => [rev w] | None => [] end
  | c :: t =>
      if isspace c
      then match cur with
           | Some w => rev w :: split_ws_from None t
           | None => split_ws_from None t
           end
      else split_ws_from (Some (c :: default [] cur)) t
  end.

Definition split_ws (s : str) : list str := split_ws_from None s.

Definition digit (c : ascii) : option Z :=
  let n := nat_of_ascii c in
  if Nat.leb 48 n && Nat.leb n 57 then Some (Z.of_nat (n - 48)) else None.

Fixpoint digits (acc : Z) (s : str) : option Z :=
  match s with
  | [] => Some acc
  | c :: t =>
      match digit c with
      | Some d => digits (10 * acc + d) t
      | None => None
      end
  end.

(** [int(s)] on a [str], base 10: surrounding whitespace, an optional
    sign directly before the digits, at least one digit. *)
Definition int (s : str) : result Z :=
  let body := strip s in
  let '(neg, ds) :=
    match body with
    | c :: t =>
        if Ascii.eqb c "-" then (true, t)
        else if Ascii.eqb c "+" then (false, t)
        else (false, body)
    | [] => (false, body)
    end in
  match ds with
  | [] => Raise ValueError
  | _ :: _ =>
      match digits 0 ds with
      | Some n => Ok (if neg then (- n)%Z else n)
      | None => Raise ValueError
      end
  end.

(** [l[i]] on a list, for a non-negative [i]. *)
Definition index {A} (l : list A) (i : nat) : result A :=
  match l !! i with
  | Some x => Ok x
  | None => Raise IndexError
  end.

End Py.

(** ** The tokenizer *)

Definition strip_comments (line : str) : str :=
  Py.strip (Py.replace (Py.replace line (txt "/*") []) (txt "*/") []).

Definition strip_doublequotes (line : str) : str :=
  Py.replace line [Py.dquote] [].

(** [Line = namedtuple('Line', 'key value comment')] *)
Record Line : Type := mkLine { key : str; value : str; comment : str }.

Definition interpret_line (line : str) : result Line :=
  let raw := Py.strip (Py.replace line [Py.nl] []) in
  let parts := map Py.strip (Py.split raw "="%char) in
  p1 ← Py.index parts 1;
  let other := map Py.strip (Py.split p1 ";"%char) in
  o0 ← Py.index other 0;
  let value := strip_doublequotes o0 in
  comment ← (if Nat.eqb (length other) 2
             then o1 ← Py.index other 1;
                  mret (strip_doublequotes (strip_comments o1))
             else mret []);
  p0 ← Py.index parts 0;
  mret (mkLine p0 value comment).

(** ** Floats and the [.1f] format *)

Module Float.

(** Python floats are IEEE binary64. *)
Definition prec : Z := 53.
Definition emax : Z := 1024.

Definition mul : spec_float -> spec_float -> spec_float := SFmul prec emax.
Definition div : spec_float -> spec_float -> spec_float := SFdiv prec emax.

(** Conversion of a Python integer, rounding to nearest even; an integer
    beyond the range of the finite floats raises [OverflowError]. *)
Definition of_int (z : Z) : result spec_float :=
  match binary_normalize prec emax z 0 false with
  | S754_infinity _ => Raise OverflowError
  | x => Ok x
  end.

(** The literal [100.] *)
Definition hundred : spec_float := binary_normalize prec emax 100 0 false.

Definition is_zero (x : spec_float) : bool :=
  match x with S754_zero _ => true | _ => false end.

(** [a / b] on floats. *)
Definition truediv (a b : spec_float) : result spec_float :=
  if is_zero b then Raise ZeroDivisionError else Ok (div a b).

Definition decimal (n : Z) : str :=
  list_ascii_of_string (NilZero.string_of_uint (N.to_uint (Z.to_N n))).

(** The number of tenths nearest to [m * 2^e], ties to even. *)
Definition tenths (m : positive) (e : Z) : Z :=
  match e with
  | Zneg p =>
      let den := Z.pow 2 (Zpos p) in
      let num := (10 * Zpos m)%Z in
      let q := (num / den)%Z in
      let r := (num mod den)%Z in
      match (2 * r ?= den)%Z with
      | Lt => q
      | Gt => (q + 1)%Z
      | Eq => if Z.even q then q else (q + 1)%Z
      end
  | _ => (10 * Zpos m * Z.pow 2 e)%Z
  end.

Definition sign (s : bool) : str := if s then txt "-" else [].

(** ["{0:.1f}".format(x)] *)
Definition format_1f (x : spec_float) : str :=
  match x with
  | S754_nan => txt "nan"
  | S754_infinity s => sign s ++ txt "inf"
  | S754_zero s => sign s ++ txt "0.0"
  | S754_finite s m e =>
      let t := tenths m e in
      sign s ++ decimal (t / 10) ++ txt "." ++ decimal (t mod 10)
  end.

(** ["{0:.1f}".format(100. * a / b)] for integers [a] and [b]. *)
Definition percent (a b : Z) : result str :=
  fa ← of_int a;
  fb ← of_int b;
  q ← truediv (mul hundred fa) fb;
  mret (format_1f q).

End Float.

(** ** The record classes *)

Module NodeStatus.

Record t : Type := mk {
  node : str;
  node_status : str;
  status_details : str;
  retry_count : Z;
  job_procs_queued : Z;
  job_procs_held : Z
}.

(** [NodeStatus.__init__] *)
Definition init (node node_status status_details
                 retry_count job_procs_queued job_procs_held : str) : result t :=
  let node := strip_doublequotes node in
  let node_status := strip_doublequotes node_status in
  let status_details := Py.replace status_details [Py.dquote] [] in
  retry_count ← Py.int retry_count;
  job_procs_queued ← Py.int job_procs_queued;
  job_procs_held ← Py.int job_procs_held;
  mret (mk node node_status status_details
           retry_count job_procs_queued job_procs_held).

End NodeStatus.

Module DagStatus.

Record t : Type := mk {
  timestamp : str;
  dag_status : str;
  nodes_total : Z;
  nodes_done : Z;
  nodes_pre : Z;
  nodes_queued : Z;
  nodes_post : Z;
  nodes_ready : Z;
  nodes_unready : Z;
  nodes_failed : Z;
  job_procs_held : Z;
  job_procs_idle : Z;
  nodes_done_percent : str;
  _job_procs_running : Z;
  node_statuses : list NodeStatus.t
}.

(** [DagStatus.__init__], called without [node_statuses]. *)
Definition init (timestamp dag_status nodes_total nodes_done nodes_pre
                 nodes_queued nodes_post nodes_ready nodes_unready
                 nodes_failed job_procs_held job_procs_idle : str) : result t :=
  let dag_status := strip_doublequotes dag_status in
  nodes_total ← Py.int nodes_total;
  nodes_done ← Py.int nodes_done;
  nodes_pre ← Py.int nodes_pre;
  nodes_queued ← Py.int nodes_queued;
  nodes_post ← Py.int nodes_post;
  nodes_ready ← Py.int nodes_ready;
  nodes_unready ← Py.int nodes_unready;
  nodes_failed ← Py.int nodes_failed;
  job_procs_held ← Py.int job_procs_held;
  job_procs_idle ← Py.int job_procs_idle;
  nodes_done_percent ← Float.percent nodes_done nodes_total;
  mret (mk timestamp dag_status nodes_total nodes_done nodes_pre
           nodes_queued nodes_post nodes_ready nodes_unready nodes_failed
           job_procs_held job_procs_idle nodes_done_percent 0 []).

(** [self.node_statuses = l] *)
Definition set_node_statuses (self : t) (l : list NodeStatus.t) : t :=
  mk (timestamp self) (dag_status self) (nodes_total self) (nodes_done self)
     (nodes_pre self) (nodes_queued self) (nodes_post self)
     (nodes_ready self) (nodes_unready self) (nodes_failed self)
     (job_procs_held self) (job_procs_idle self) (nodes_done_percent self)
     (_job_procs_running self) l.

Definition is_running (n : NodeStatus.t) : bool :=
  bool_decide (NodeStatus.node_status n = txt "STATUS_SUBMITTED")
  && bool_decide (NodeStatus.status_details n = txt "not_idle").

(** The property [job_procs_running]. *)
Definition job_procs_running (self : t) : Z :=
  Z.of_nat (length (List.filter is_running (node_statuses self))).

(** The property [nodes_running_percent]. *)
Definition nodes_running_percent (self : t) : result str :=
  Float.percent (job_procs_running self) (nodes_total self).

End DagStatus.

Module StatusEnd.

Record t : Type := mk { end_time : str; next_update : str }.

(** [StatusEnd.__init__] *)
Definition init (end_time next_update : str) : t :=
  mk (strip_doublequotes end_time) (strip_doublequotes next_update).

End StatusEnd.

(** ** Terminal colours *)

Module TColors.
Definition esc : ascii := "027"%char.
Definition YELLOW : str := esc :: txt "[93m".
Definition ENDC : str := esc :: txt "[0m".
Definition RED : str := esc :: txt "[91m".
Definition BLUE : str := esc :: txt "[94m".
Definition GREEN : str := esc :: txt "[92m".

(** [TColors.color(state)] *)
Definition color (state : str) : str :=
  if Py.startswith state (txt "STATUS_ERROR") then RED
  else if Py.startswith state (txt "STATUS_SUBMITTED") then BLUE
  else if Py.startswith state (txt "STATUS_DONE") then GREEN
  else ENDC.
End TColors.

(** ** The block parser *)

(** The local variables of the loop of [process]. *)
Record parse_state : Type := mk_state {
  dag_status : option DagStatus.t;
  node_statuses : list NodeStatus.t;
  status_end : option StatusEnd.t;
  contents : gmap str Line;
  store_contents : bool
}.

(** The state before the first line is read. *)
Definition initial : parse_state := mk_state None [] None ∅ false.

(** [contents[k]] *)
Definition getitem (contents : gmap str Line) (k : str) : result Line :=
  match contents !! k with
  | Some l => Ok l
  | None => Raise (KeyError k)
  end.

(** The branch of a line starting with "]": build the record the [Type]
    key names. The keyword arguments are evaluated in the order written. *)
Definition close_block (st : parse_state) : result parse_state :=
  let c := contents st in
  ty ← getitem c (txt "Type");
  if decide (value ty = txt "DagStatus") then
    timestamp ← getitem c (txt "Timestamp");
    dag ← getitem c (txt "DagStatus");
    nodes_total ← getitem c (txt "NodesTotal");
    nodes_done ← getitem c (txt "NodesDone");
    nodes_pre ← getitem c (txt "NodesPre");
    nodes_queued ← getitem c (txt "NodesQueued");
    nodes_post ← getitem c (txt "NodesPost");
    nodes_ready ← getitem c (txt "NodesReady");
    nodes_unready ← getitem c (txt "NodesUnready");
    nodes_failed ← getitem c (txt "NodesFailed");
    job_procs_held ← getitem c (txt "JobProcsHeld");
    job_procs_idle ← getitem c (txt "JobProcsIdle");
    d ← DagStatus.init (comment timestamp) (comment dag)
          (value nodes_total) (value nodes_done) (value nodes_pre)
          (value nodes_queued) (value nodes_post) (value nodes_ready)
          (value nodes_unready) (value nodes_failed)
          (value job_procs_held) (value job_procs_idle);
    mret (mk_state (Some d) (node_statuses st) (status_end st) ∅ false)
  else if decide (value ty = txt "NodeStatus") then
    node ← getitem c (txt "Node");
    node_status ← getitem c (txt "NodeStatus");
    status_details ← getitem c (txt "StatusDetails");
    retry_count ← getitem c (txt "RetryCount");
    job_procs_queued ← getitem c (txt "JobProcsQueued");
    job_procs_held ← getitem c (txt "JobProcsHeld");
    n ← NodeStatus.init (value node) (comment node_status)
          (value status_details) (value retry_count)
          (value job_procs_queued) (value job_procs_held);
    mret (mk_state (dag_status st) (node_statuses st ++ [n]) (status_end st)
            ∅ false)
  else if decide (value ty = txt "StatusEnd") then
    end_time ← getitem c (txt "EndTime");
    next_update ← getitem c (txt "NextUpdate");
    let e := StatusEnd.init (comment end_time) (comment next_update) in
    mret (mk_state (dag_status st) (node_statuses st) (Some e) ∅ false)
  else Raise (KeyError (txt "Unknown block Type")).

Definition set_store (st : parse_state) (b : bool) : parse_state :=
  mk_state (dag_status st) (node_statuses st) (status_end st) (contents st) b.

(** One iteration of [for line in sfile]. *)
Definition step (st : parse_state) (line : str) : result parse_state :=
  if Py.startswith line (txt "[") || Py.contains line (txt "}") then
    mret (set_store st true)
  else if Py.startswith line (txt "]") then
    close_block st
  else if Py.contains line (txt "{") then
    mret (set_store st false)
  else if store_contents st then
    line_parsed ← interpret_line line;
    mret (mk_state (dag_status st) (node_statuses st) (status_end st)
            (<[key line_parsed := line_parsed]> (contents st))
            (store_contents st))
  else mret st.

(** The whole loop, from the state [st]. *)
Fixpoint run (st : parse_state) (sfile : list str) : result parse_state :=
  match sfile with
  | [] => Ok st
  | line :: rest => st' ← step st line; run st' rest
  end.

(** ** Rendering and the command line *)

(** What the program prints. The header line of a file is kept as text;
    the three parts of the table of [print_table] are kept as the records
    they are drawn from. *)
Inductive output : Type :=
  | Printed (line : str)
  | JobRows (node_statuses : list NodeStatus.t)
  | SummaryRow (dag_status : DagStatus.t)
  | Times (status_end : StatusEnd.t).

(** The world outside the program: the lines of each readable file, as
    iterating over the open file yields them, and what the command
    [stty size] prints. *)
Record env : Type := mk_env {
  files : str -> option (list str);
  stty_size : str
}.

(** [term_rows, term_columns = os.popen('stty size', 'r').read().split()]
    with both converted by [int]. *)
Definition terminal_size (w : env) : result (Z * Z) :=
  match Py.split_ws (stty_size w) with
  | [r; c] => rows ← Py.int r; cols ← Py.int c; mret (rows, cols)
  | _ => Raise ValueError
  end.

Definition print_table (w : env) (dag_status : DagStatus.t)
    (node_statuses : list NodeStatus.t) (status_end : option StatusEnd.t)
    (summary : bool) : list output * result unit :=
  match terminal_size w with
  | Raise e => ([], Raise e)
  | Ok _ =>
      if summary then ([SummaryRow dag_status], Ok tt)
      else
        match status_end with
        | Some e =>
            ([JobRows node_statuses; SummaryRow dag_status; Times e], Ok tt)
        | None =>
            ([JobRows node_statuses; SummaryRow dag_status],
             Raise AttributeError)
        end
  end.

(** [print TColors.YELLOW + status_filename + " :" + TColors.ENDC] *)
Definition header (status_filename : str) : output :=
  Printed (TColors.YELLOW ++ status_filename ++ txt " :" ++ TColors.ENDC).

(** [process(status_filename, summary)]: the header line is printed
    first; opening the file, the loop, the assignment to
    [dag_status.node_statuses] and [print_table] follow, each of which
    may raise. *)
Definition process (w : env) (status_filename : str) (summary : bool)
    : list output * result unit :=
  match files w status_filename with
  | None => ([header status_filename], Raise IOError)
  | Some sfile =>
      match run initial sfile with
      | Raise e => ([header status_filename], Raise e)
      | Ok st =>
          match dag_status st with
          | None => ([header status_filename], Raise AttributeError)
          | Some d =>
              let d := DagStatus.set_node_statuses d (node_statuses st) in
              let '(out, r) :=
                print_table w d (node_statuses st) (status_end st) summary in
              (header status_filename :: out, r)
          end
      end
  end.

(** [for f in args.statusFile: process(f, args.summary)] *)
Fixpoint main (w : env) (statusFile : list str) (summary : bool)
    : list output * result unit :=
  match statusFile with
  | [] => ([], Ok tt)
  | f :: rest =>
      match process w f summary with
      | (out, Raise e) => (out, Raise e)
      | (out, Ok _) =>
          let '(out', r) := main w rest summary in (out ++ out', r)
      end
  end.

(** ** Auxiliary definitions for the statements *)

(** [line.replace('\n', '')] *)
Definition drop_newlines (s : str) : str := Py.replace s [Py.nl] [].

(** What [interpret_line] computes once [parts[0]] and [parts[1]] are
    known. *)
Definition line_of (p0 p1 : str) : result Line :=
  let other := map Py.strip (Py.split p1 ";"%char) in
  o0 ← Py.index other 0;
  let value := strip_doublequotes o0 in
  comment ← (if Nat.eqb (length other) 2
             then o1 ← Py.index other 1;
                  mret (strip_doublequotes (strip_comments o1))
             else mret []);
  mret (mkLine p0 value comment).

(** The text right of the first occurrence of [c] (empty without one). *)
Fixpoint after_first (s : str) (c : ascii) : str :=
  match s with
  | [] => []
  | x :: t => if Ascii.eqb x c then t else after_first t c
  end.

(** The fields of a line in the words of the format, written without the
    program's helpers, to compare [interpret_line] with: a text without
    its double quotes, *)
Definition without_quotes (s : str) : str :=
  List.filter (fun c => negb (Ascii.eqb c Py.dquote)) s.

(** a text without the occurrences of the two characters [a b] in a row,
    found from left to right, *)
Fixpoint without_pair (a b : ascii) (s : str) : str :=
  match s with
  | [] => []
  | x :: r =>
      match r with
      | y :: t =>
          if Ascii.eqb x a && Ascii.eqb y b then without_pair a b t
          else x :: without_pair a b r
      | [] => [x]
      end
  end.

(** and a comment without its markers: the opening ones go first, then
    the closing ones. *)
Definition without_markers (s : str) : str :=
  without_pair "*" "/" (without_pair "/" "*" s).

(** A field of a well-formed line: free of "=", ";" and newlines. *)
Definition token (s : str) : bool :=
  negb (Py.contains s (txt "=")) && negb (Py.contains s (txt ";"))
  && negb (Py.contains s [Py.nl]).

(** A line that takes the block-closing branch of the loop: it starts with
    "]" and is not caught by the first test. *)
Definition closes (line : str) : bool :=
  negb (Py.startswith line (txt "[") || Py.contains line (txt "}"))
  && Py.startswith line (txt "]").

(** A block of a file: the lines up to a closing line, and that line. *)
Record block : Type := mk_block { body : list str; close : str }.

Definition block_lines (b : block) : list str := body b ++ [close b].

Definition is_block (b : block) : bool :=
  forallb (fun l => negb (closes l)) (body b) && closes (close b).

Definition file_of (bs : list block) (trailer : list str) : list str :=
  flat_map block_lines bs ++ trailer.

(** The value of the [Type] key accumulated over the body of a block. *)
Definition block_type (b : block) : option str :=
  match run initial (body b) with
  | Ok st => value <$> contents st !! txt "Type"
  | Raise _ => None
  end.

Definition has_type (t : str) (b : block) : bool :=
  bool_decide (block_type b = Some t).

(** The node records of a block read on its own. *)
Definition block_nodes (b : block) : list NodeStatus.t :=
  match run initial (block_lines b) with
  | Ok st => node_statuses st
  | Raise _ => []
  end.

Definition known_types : list str :=
  [txt "DagStatus"; txt "NodeStatus"; txt "StatusEnd"].

(** The [Type] key is missing, or its value is none of the known ones. *)
Definition unknown_type (c : gmap str Line) : bool :=
  match c !! txt "Type" with
  | Some l => forallb (fun t => negb (bool_decide (value l = t))) known_types
  | None => true
  end.

(** The records found before a point of the file, and their effect on
    the state reached by reading on from there. *)
Record frame : Type := mk_frame {
  f_dag : option DagStatus.t;
  f_nodes : list NodeStatus.t;
  f_end : option StatusEnd.t
}.

Definition with_frame (F : frame) (st : parse_state) : parse_state :=
  mk_state
    (match dag_status st with Some d => Some d | None => f_dag F end)
    (f_nodes F ++ node_statuses st)
    (match status_end st with Some e => Some e | None => f_end F end)
    (contents st) (store_contents st).

Definition frame_of (st : parse_state) : frame :=
  mk_frame (dag_status st) (node_statuses st) (status_end st).

#[global] Instance result_fmap : FMap result := fun A B f m =>
  match m with
  | Ok a => Ok (f a)
  | Raise e => Raise e
  end.

(** A node counted as running. *)
Definition running (n : NodeStatus.t) : Prop :=
  NodeStatus.node_status n = txt "STATUS_SUBMITTED"
  /\ NodeStatus.status_details n = txt "not_idle".

#[global] Instance running_dec (n : NodeStatus.t) : Decision (running n).
Proof. unfold running. apply _. Defined.

(** ** A status file, as the DAG engine writes it *)

Definition ln (s : string) : str := txt s ++ [Py.nl].

Definition quoted (s : string) : str := Py.dquote :: txt s ++ [Py.dquote].

Definition dag_block : block :=
  mk_block
    [ ln "[";
      txt "  Type = " ++ quoted "DagStatus" ++ ln ";";
      ln "  DagFiles = {";
      txt "    " ++ quoted "job.dag" ++ [Py.nl];
      ln "  };";
      txt "  Timestamp = 1399674138; /* " ++ quoted "Fri May  9 17:22:18 2014"
        ++ ln " */";
      txt "  DagStatus = 3; /* " ++ quoted "STATUS_SUBMITTED ()" ++ ln " */";
      ln "  NodesTotal = 10;";
      ln "  NodesDone = 3;";
      ln "  NodesPre = 0;";
      ln "  NodesQueued = 1;";
      ln "  NodesPost = 0;";
      ln "  NodesReady = 0;";
      ln "  NodesUnready = 6;";
      ln "  NodesFailed = 0;";
      ln "  JobProcsHeld = 0;";
      ln "  JobProcsIdle = 0;" ]
    (ln "]").

Definition node_block (name code status details : string) : block :=
  mk_block
    [ ln "[";
      txt "  Type = " ++ quoted "NodeStatus" ++ ln ";";
      txt "  Node = " ++ quoted name ++ ln ";";
      txt "  NodeStatus = " ++ txt code ++ txt "; /* " ++ quoted status
        ++ ln " */";
      txt "  StatusDetails = " ++ quoted details ++ ln ";";
      ln "  RetryCount = 0;";
      ln "  JobProcsQueued = 1;";
      ln "  JobProcsHeld = 0;" ]
    (ln "]").

Definition end_block : block :=
  mk_block
    [ ln "[";
      txt "  Type = " ++ quoted "StatusEnd" ++ ln ";";
      txt "  EndTime = 1399674138; /* " ++ quoted "Fri May  9 17:22:18 2014"
        ++ ln " */";
      txt "  NextUpdate = 1399674198; /* " ++ quoted "Fri May  9 17:23:18 2014"
        ++ ln " */" ]
    (ln "]").

Definition bogus_block : block :=
  mk_block [ ln "["; txt "  Type = " ++ quoted "Bogus" ++ ln ";" ] (ln "]").

(** One running node, the DAG block, one finished node, the end marker. *)
Definition sample_blocks : list block :=
  [ node_block "A" "3" "STATUS_SUBMITTED" "not_idle";
    dag_block;
    node_block "B" "5" "STATUS_DONE" "";
    end_block ].

Definition sample_file : list str := file_of sample_blocks [].

Definition sample_node_a : NodeStatus.t :=
  NodeStatus.mk (txt "A") (txt "STATUS_SUBMITTED") (txt "not_idle") 0 1 0.

Definition sample_node_b : NodeStatus.t :=
  NodeStatus.mk (txt "B") (txt "STATUS_DONE") [] 0 1 0.

Definition sample_dag : DagStatus.t :=
  DagStatus.mk (txt "Fri May  9 17:22:18 2014") (txt "STATUS_SUBMITTED ()")
    10 3 0 1 0 0 6 0 0 0 (txt "30.0") 0 [].

Definition sample_end : StatusEnd.t :=
  StatusEnd.mk (txt "Fri May  9 17:22:18 2014")
    (txt "Fri May  9 17:23:18 2014").

Definition sample_state : parse_state :=
  mk_state (Some sample_dag) [sample_node_a; sample_node_b] (Some sample_end)
    ∅ false.

(** The state reached at the closing line of [bogus_block]. *)
Definition bogus_state : parse_state :=
  match run initial (body bogus_block) with
  | Ok st => st
  | Raise _ => initial
  end.

(** Three files, and a terminal of 24 rows and 80 columns. *)
Definition sample_env : env :=
  mk_env
    (fun name =>
       if decide (name = txt "job.status") then Some sample_file
       else if decide (name = txt "bogus.status")
            then Some (block_lines bogus_block ++ block_lines dag_block)
       else if decide (name = txt "empty.status") then Some []
       else None)
    (txt "24 80").

Definition is_ok {A} (r : result A) : bool :=
  match r with Ok _ => true | Raise _ => false end.

(** ** The branches of the loop, by the line that selects them *)

(** The first test: the line starts with "[" or contains "}". *)
Definition opens (line : str) : bool :=
  Py.startswith line (txt "[") || Py.contains line (txt "}").

(** A line that neither starts nor closes anything: it is tokenized
    inside a block and skipped outside. *)
Definition plain (line : str) : bool :=
  negb (opens line) && negb (Py.startswith line (txt "]"))
  && negb (Py.contains line (txt "{")).

(** A line that can only clear the flag or be skipped, never be
    tokenized, as long as the flag is clear. *)
Definition quiet (line : str) : bool :=
  negb (opens line) && negb (Py.startswith line (txt "]")).

(** A line that takes the third branch: it contains "{". *)
Definition pauses (line : str) : bool :=
  quiet line && Py.contains line (txt "{").

(** The keys a block of the given type is asked for, in the order the
    keyword arguments of its constructor are written. *)
Definition required (ty : str) : list str :=
  if decide (ty = txt "DagStatus") then
    [txt "Timestamp"; txt "DagStatus"; txt "NodesTotal"; txt "NodesDone";
     txt "NodesPre"; txt "NodesQueued"; txt "NodesPost"; txt "NodesReady";
     txt "NodesUnready"; txt "NodesFailed"; txt "JobProcsHeld";
     txt "JobProcsIdle"]
  else if decide (ty = txt "NodeStatus") then
    [txt "Node"; txt "NodeStatus"; txt "StatusDetails"; txt "RetryCount";
     txt "JobProcsQueued"; txt "JobProcsHeld"]
  else if decide (ty = txt "StatusEnd") then
    [txt "EndTime"; txt "NextUpdate"]
  else [].

Definition first_missing (c : gmap str Line) (keys : list str) : option str :=
  List.find (fun k => bool_decide (c !! k = None)) keys.

(** The DAG record and the end record of a block read on its own. *)
Definition block_dag (b : block) : option DagStatus.t :=
  match run initial (block_lines b) with
  | Ok st => dag_status st
  | Raise _ => None
  end.

Definition block_end (b : block) : option StatusEnd.t :=
  match run initial (block_lines b) with
  | Ok st => status_end st
  | Raise _ => None
  end.

(** [x] when it holds a value, else [y]. *)
Definition or_else {A} (x y : option A) : option A :=
  match x with Some a => Some a | None => y end.

(** ** The text of the table *)

Module PyFmt.

(** [str(z)] of an integer. *)
Definition str_int (z : Z) : str :=
  if (z <? 0)%Z then "-"%char :: Float.decimal (- z) else Float.decimal z.

(** [c * n] for a one-character string [c]: empty when [n] is negative. *)
Definition times (c : ascii) (n : Z) : str := repeat c (Z.to_nat n).

(** A replacement field [{i:<w}] applied to [s]: [s] followed by blanks up
    to [w] characters, never cut. *)
Definition ljust (s : str) (w : nat) : str :=
  s ++ repeat " "%char (w - length s).

(** [sep.join(l)] *)
Fixpoint join (sep : str) (l : list str) : str :=
  match l with
  | [] => []
  | x :: r =>
      match r with
      | [] => x
      | _ :: _ => x ++ sep ++ join sep r
      end
  end.

(** The format string [sep.join] builds from one replacement field
    [{i:<w}] per column, applied to the cells by [format]. *)
Definition format_row (sep : str) (widths : list nat) (cells : list str)
    : str :=
  join sep (zip_with ljust cells widths).

(** What a [print] statement writes for one string. *)
Definition println (s : str) : str := s ++ [Py.nl].

End PyFmt.

(** [job_dict]: column titles and the attribute shown under each, as
    [str] renders it. *)
Definition job_dict : list (str * (NodeStatus.t -> str)) :=
  [ (txt "Node", NodeStatus.node);
    (txt "Status", NodeStatus.node_status);
    (txt "Retries", fun n => PyFmt.str_int (NodeStatus.retry_count n));
    (txt "Detail", NodeStatus.status_details) ].

(** [summary_dict]; reading [nodes_running_percent] may raise. *)
Definition summary_dict : list (str * (DagStatus.t -> result str)) :=
  [ (txt "DAG Status", fun d => Ok (DagStatus.dag_status d));
    (txt "Total", fun d => Ok (PyFmt.str_int (DagStatus.nodes_total d)));
    (txt "Queued", fun d => Ok (PyFmt.str_int (DagStatus.nodes_queued d)));
    (txt "Idle", fun d => Ok (PyFmt.str_int (DagStatus.job_procs_idle d)));
    (txt "Running",
     fun d => Ok (PyFmt.str_int (DagStatus.job_procs_running d)));
    (txt "Running %", DagStatus.nodes_running_percent);
    (txt "Failed", fun d => Ok (PyFmt.str_int (DagStatus.nodes_failed d)));
    (txt "Done", fun d => Ok (PyFmt.str_int (DagStatus.nodes_done d)));
    (txt "Done %", fun d => Ok (DagStatus.nodes_done_percent d)) ].

(** The results of a list of calls, or the first exception. *)
Fixpoint collect {A} (l : list (result A)) : result (list A) :=
  match l with
  | [] => Ok []
  | r :: rest => x ← r; xs ← collect rest; mret (x :: xs)
  end.

(** A table over the rows [rows]: per column, the largest of the title
    and the cells; the header row; the row of one item. *)
Section Table.
Context {A : Type}.
Variable dict : list (str * (A -> str)).
Variable sep : str.
Variable rows : list A.

Definition col_widths : list nat :=
  map (fun '(k, v) => max_list (map (fun x => length (v x)) rows ++ [length k]))
    dict.

Definition header_row : str :=
  PyFmt.format_row sep col_widths (map fst dict).

Definition item_row (x : A) : str :=
  PyFmt.format_row sep col_widths (map (fun '(k, v) => v x) dict).
End Table.

(** [summary_col_widths], from the cells of the one summary row. *)
Definition summary_col_widths (cells : list str) : list nat :=
  zip_with (fun c k => Nat.max (length c) (length k))
    cells (map fst summary_dict).

(** What [print_table] writes: the complete lines, and the text of a line
    begun but not ended when an exception interrupts a [print]. *)
Definition print_table_out (w : env) (dag_status : DagStatus.t)
    (node_statuses : list NodeStatus.t) (status_end : option StatusEnd.t)
    (summary : bool) : (list str * str) * result unit :=
  let job_header := header_row job_dict (txt " | ") node_statuses in
  match collect (map (fun '(k, v) => v dag_status) summary_dict) with
  | Raise e => (([], []), Raise e)
  | Ok cells =>
      let summary_format :=
        PyFmt.format_row (txt "  |  ") (summary_col_widths cells) in
      let summary_header := summary_format (map fst summary_dict) in
      let columns :=
        (Z.of_nat (if summary then length summary_header
                   else Nat.max (length job_header) (length summary_header))
         + 1)%Z in
      match terminal_size w with
      | Raise e => (([], []), Raise e)
      | Ok (term_rows, term_columns) =>
          let columns :=
            if (columns >? term_columns)%Z then term_columns else columns in
          let tildes := PyFmt.times "~" columns in
          let dashes := PyFmt.times "-" columns in
          let job_part :=
            [tildes; TColors.ENDC ++ job_header; dashes]
            ++ map (fun n => TColors.color (NodeStatus.node_status n)
                             ++ item_row job_dict (txt " | ") node_statuses n)
                 node_statuses
            ++ [TColors.ENDC ++ dashes] in
          let summary_part :=
            [tildes; summary_header; dashes;
             TColors.color (DagStatus.dag_status dag_status)
             ++ summary_format cells] in
          if summary then
            ((summary_part ++ [TColors.ENDC ++ tildes], []), Ok tt)
          else
            match status_end with
            | Some e =>
                ((job_part ++ summary_part
                  ++ [TColors.ENDC ++ dashes;
                      txt "Status recorded at:" ++ txt " "
                        ++ StatusEnd.end_time e;
                      txt "Next update:       " ++ txt " "
                        ++ StatusEnd.next_update e;
                      TColors.ENDC ++ tildes], []),
                 Ok tt)
            | None =>
                ((job_part ++ summary_part ++ [TColors.ENDC ++ dashes],
                  txt "Status recorded at:"),
                 Raise AttributeError)
            end
      end
  end.

(** A decimal digit. *)
Definition is_digit (c : ascii) : bool :=
  match Py.digit c with Some _ => true | None => false end.

(** The characters with a meaning in the file format. *)
Definition special : str := txt "=;{}/*" ++ [Py.nl; Py.dquote].

(** A character that may stand in a quoted text of the file. *)
Definition safe (c : ascii) : bool := negb (existsb (Ascii.eqb c) special).

(** The block the DAG engine writes for a node: the name, the status and
    the details in double quotes, the status as the comment of its numeric
    code, the counters in decimal. *)
Definition node_record_block (name code status details : str)
    (retry_count job_procs_queued job_procs_held : Z) : block :=
  mk_block
    [ ln "[";
      txt "  Type = " ++ quoted "NodeStatus" ++ ln ";";
      txt "  Node = " ++ Py.dquote :: name ++ Py.dquote :: ln ";";
      txt "  NodeStatus = " ++ code ++ txt "; /* "
        ++ Py.dquote :: status ++ Py.dquote :: ln " */";
      txt "  StatusDetails = " ++ Py.dquote :: details ++ Py.dquote :: ln ";";
      txt "  RetryCount = " ++ PyFmt.str_int retry_count ++ ln ";";
      txt "  JobProcsQueued = " ++ PyFmt.str_int job_procs_queued ++ ln ";";
      txt "  JobProcsHeld = " ++ PyFmt.str_int job_procs_held ++ ln ";" ]
    (ln "]").

(** The block written for a node record, and the records that can be
    written: their three texts are made of safe characters. *)
Definition block_of_node (code : str) (n : NodeStatus.t) : block :=
  node_record_block (NodeStatus.node n) code (NodeStatus.node_status n)
    (NodeStatus.status_details n) (NodeStatus.retry_count n)
    (NodeStatus.job_procs_queued n) (NodeStatus.job_procs_held n).

Definition safe_node (n : NodeStatus.t) : bool :=
  forallb safe (NodeStatus.node n) && forallb safe (NodeStatus.node_status n)
  && forallb safe (NodeStatus.status_details n).

(** * Properties *)

(** ** Characters, [replace] with a one-character pattern *)

Lemma contains_char (s : str) (c : ascii) :
  Py.contains s [c] = false <-> c ∉ s.
Proof.
  induction s as [|x t IH]; simpl.
  - split; [intros _; apply not_elem_of_nil | done].
  - rewrite andb_true_r, orb_false_iff, IH, not_elem_of_cons, Ascii.eqb_neq.
    split; intros [? ?]; split; auto.
Qed.

Lemma replace_char (s : str) (c : ascii) :
  Py.replace s [c] [] = List.filter (fun x => negb (Ascii.eqb x c)) s.
Proof.
  unfold Py.replace. induction s as [|x t IH]; simpl; [done|].
  rewrite andb_true_r. destruct (Ascii.eqb x c); simpl; by rewrite IH.
Qed.

Lemma replace_char_app (s t : str) (c : ascii) :
  Py.replace (s ++ t) [c] [] = Py.replace s [c] [] ++ Py.replace t [c] [].
Proof. rewrite !replace_char. apply List.filter_app. Qed.

Lemma replace_char_cons (x : ascii) (s : str) (c : ascii) :
  x <> c -> Py.replace (x :: s) [c] [] = x :: Py.replace s [c] [].
Proof.
  intros Hx. rewrite !replace_char. simpl.
  apply Ascii.eqb_neq in Hx. by rewrite Hx.
Qed.

Lemma replace_char_id (s : str) (c : ascii) :
  c ∉ s -> Py.replace s [c] [] = s.
Proof.
  rewrite replace_char. induction s as [|x t IH]; simpl; [done|].
  rewrite not_elem_of_cons. intros [Hx Ht].
  assert (Ascii.eqb x c = false) as -> by (apply Ascii.eqb_neq; congruence).
  simpl. by rewrite IH.
Qed.

Lemma replace_char_notin (s : str) (c d : ascii) :
  d ∉ s -> d ∉ Py.replace s [c] [].
Proof.
  rewrite replace_char, !list_elem_of_In, List.filter_In. tauto.
Qed.

Lemma replace_char_spaces (s : str) (c : ascii) :
  forallb Py.isspace s = true -> forallb Py.isspace (Py.replace s [c] []) = true.
Proof.
  rewrite replace_char, !forallb_forall. intros H x Hx.
  apply List.filter_In in Hx. apply H, Hx.
Qed.

(** ** [strip] *)

Lemma lstrip_app (a b : str) :
  Py.lstrip (a ++ b)
  = match Py.lstrip a with [] => Py.lstrip b | r => r ++ b end.
Proof.
  induction a as [|x a IH]; simpl; [done|].
  destruct (Py.isspace x); [apply IH | done].
Qed.

Lemma lstrip_nonspace (a : str) (c : ascii) (t : str) :
  Py.isspace c = false -> Py.lstrip (a ++ c :: t) = Py.lstrip a ++ c :: t.
Proof.
  intros Hc. induction a as [|x a IH]; simpl.
  - by rewrite Hc.
  - destruct (Py.isspace x); [apply IH | done].
Qed.

Lemma rstrip_nonspace (a : str) (c : ascii) (t : str) :
  Py.isspace c = false -> Py.rstrip (a ++ c :: t) = a ++ c :: Py.rstrip t.
Proof.
  intros Hc. unfold Py.rstrip.
  rewrite rev_app_distr. simpl. rewrite <- app_assoc. simpl.
  rewrite lstrip_nonspace by done.
  rewrite rev_app_distr. simpl. rewrite rev_involutive, <- app_assoc. done.
Qed.

Lemma lstrip_spaces (w s : str) :
  forallb Py.isspace w = true -> Py.lstrip (w ++ s) = Py.lstrip s.
Proof.
  induction w as [|x w IH]; simpl; [done|].
  intros [Hx Hw]%andb_true_iff. rewrite Hx. auto.
Qed.

Lemma forallb_rev {A} (f : A -> bool) (l : list A) :
  forallb f (rev l) = forallb f l.
Proof.
  induction l as [|x l IH]; simpl; [done|].
  rewrite forallb_app, IH. simpl. rewrite andb_true_r. apply andb_comm.
Qed.

Lemma rstrip_spaces (s w : str) :
  forallb Py.isspace w = true -> Py.rstrip (s ++ w) = Py.rstrip s.
Proof.
  intros Hw. unfold Py.rstrip. rewrite rev_app_distr, lstrip_spaces; [done|].
  by rewrite forallb_rev.
Qed.

Lemma lstrip_idem (s : str) : Py.lstrip (Py.lstrip s) = Py.lstrip s.
Proof.
  induction s as [|x s IH]; simpl; [done|].
  destruct (Py.isspace x) eqn:E; [done|]. simpl. by rewrite E.
Qed.

Lemma rstrip_idem (s : str) : Py.rstrip (Py.rstrip s) = Py.rstrip s.
Proof. unfold Py.rstrip. by rewrite rev_involutive, lstrip_idem. Qed.

Lemma rstrip_cons (x : ascii) (s : str) :
  Py.rstrip (x :: s)
  = match Py.rstrip s with
    | [] => if Py.isspace x then [] else [x]
    | r => x :: r
    end.
Proof.
  unfold Py.rstrip. simpl. rewrite lstrip_app.
  destruct (Py.lstrip (rev s)) as [|y r]; simpl.
  - by destruct (Py.isspace x).
  - rewrite rev_app_distr. simpl.
    destruct (rev r ++ [y]) eqn:E; [by destruct (rev r)|done].
Qed.

Lemma lstrip_rstrip (s : str) :
  Py.lstrip (Py.rstrip s) = Py.rstrip (Py.lstrip s).
Proof.
  induction s as [|x s IH]; [done|].
  simpl. destruct (Py.isspace x) eqn:E.
  - rewrite <- IH, rstrip_cons, E.
    destruct (Py.rstrip s) as [|y r]; [done|]. simpl. by rewrite E.
  - pose proof (rstrip_nonspace [] x s E) as R. simpl in R.
    rewrite R. simpl. by rewrite E.
Qed.

Lemma strip_lstrip (s : str) : Py.strip (Py.lstrip s) = Py.strip s.
Proof. unfold Py.strip. by rewrite lstrip_idem. Qed.

Lemma strip_rstrip (s : str) : Py.strip (Py.rstrip s) = Py.strip s.
Proof. unfold Py.strip. by rewrite lstrip_rstrip, rstrip_idem. Qed.

Lemma strip_idem (s : str) : Py.strip (Py.strip s) = Py.strip s.
Proof. unfold Py.strip at 2. by rewrite strip_rstrip, strip_lstrip. Qed.

Lemma strip_spaces (w1 s w2 : str) :
  forallb Py.isspace w1 = true -> forallb Py.isspace w2 = true ->
  Py.strip (w1 ++ s ++ w2) = Py.strip s.
Proof.
  intros H1 H2. unfold Py.strip.
  rewrite lstrip_spaces, <- lstrip_rstrip, rstrip_spaces, lstrip_rstrip; done.
Qed.

Lemma strip_all_spaces (w : str) :
  forallb Py.isspace w = true -> Py.strip w = [].
Proof.
  intros H. rewrite <- (app_nil_r w), <- (app_nil_l (w ++ [])).
  rewrite (strip_spaces [] w []); try done.
  unfold Py.strip. rewrite <- (app_nil_r w), lstrip_spaces; done.
Qed.

Lemma lstrip_notin (c : ascii) (s : str) : c ∉ s -> c ∉ Py.lstrip s.
Proof.
  induction s as [|x s IH]; simpl; [done|].
  destruct (Py.isspace x); [|done].
  rewrite not_elem_of_cons. intros [_ H]. auto.
Qed.

Lemma rstrip_notin (c : ascii) (s : str) : c ∉ s -> c ∉ Py.rstrip s.
Proof.
  intros H. unfold Py.rstrip. rewrite list_elem_of_In, <- in_rev.
  rewrite <- list_elem_of_In. apply lstrip_notin.
  by rewrite list_elem_of_In, <- in_rev, <- list_elem_of_In.
Qed.

(** ** [split] *)

Lemma split_nonempty (s : str) (c : ascii) : Py.split s c <> [].
Proof.
  destruct s as [|x s]; simpl; [done|].
  destruct (Ascii.eqb x c); [done|]. by destruct (Py.split s c).
Qed.

Lemma split_notin (s : str) (c : ascii) : c ∉ s -> Py.split s c = [s].
Proof.
  induction s as [|x s IH]; simpl; [done|].
  rewrite not_elem_of_cons. intros [Hx Hs].
  assert (Ascii.eqb x c = false) as -> by (apply Ascii.eqb_neq; congruence).
  by rewrite IH.
Qed.

Lemma split_app (s : str) (c : ascii) (t : str) :
  c ∉ s -> Py.split (s ++ c :: t) c = s :: Py.split t c.
Proof.
  induction s as [|x s IH]; simpl.
  - intros _. by rewrite Ascii.eqb_refl.
  - rewrite not_elem_of_cons. intros [Hx Hs].
    assert (Ascii.eqb x c = false) as -> by (apply Ascii.eqb_neq; congruence).
    by rewrite IH.
Qed.

(** The stripped pieces of a stripped text, read from the left. *)
Lemma pieces_first (c : ascii) (a x : str) :
  Py.isspace c = false -> c ∉ a ->
  map Py.strip (Py.split (Py.strip (a ++ c :: x)) c)
  = Py.strip a :: map Py.strip (Py.split (Py.rstrip x) c).
Proof.
  intros Hc Ha. unfold Py.strip at 2.
  rewrite lstrip_nonspace, rstrip_nonspace by done.
  rewrite split_app by by apply lstrip_notin.
  simpl. by rewrite strip_lstrip.
Qed.

Lemma pieces_next (c : ascii) (a x : str) :
  Py.isspace c = false -> c ∉ a ->
  map Py.strip (Py.split (Py.rstrip (a ++ c :: x)) c)
  = Py.strip a :: map Py.strip (Py.split (Py.rstrip x) c).
Proof.
  intros Hc Ha. rewrite rstrip_nonspace by done.
  by rewrite split_app.
Qed.

Lemma pieces_last (c : ascii) (a : str) :
  c ∉ a -> map Py.strip (Py.split (Py.rstrip a) c) = [Py.strip a].
Proof.
  intros Ha. rewrite split_notin by by apply rstrip_notin.
  simpl. by rewrite strip_rstrip.
Qed.

Lemma pieces_only (c : ascii) (a : str) :
  c ∉ a -> map Py.strip (Py.split (Py.strip a) c) = [Py.strip a].
Proof.
  intros Ha. unfold Py.strip at 2.
  rewrite pieces_last by by apply lstrip_notin.
  by rewrite strip_lstrip.
Qed.

(** ** [replace] with a two-character pattern *)

Lemma replace_from_pair_here (a b x : ascii) (s : str) :
  Py.replace_from [a; b] [] 0 (x :: s)
  = if Ascii.eqb x a && match s with y :: _ => Ascii.eqb y b | [] => false end
    then Py.replace_from [a; b] [] 1 s
    else x :: Py.replace_from [a; b] [] 0 s.
Proof.
  simpl. destruct s as [|y s]; [done|]. by rewrite andb_true_r.
Qed.

Lemma replace_from_pair_app (a b : ascii) (s t : str) (k : nat) :
  hd_error t <> Some b -> k <= length s ->
  Py.replace_from [a; b] [] k (s ++ t)
  = Py.replace_from [a; b] [] k s ++ Py.replace_from [a; b] [] 0 t.
Proof.
  intros Ht. revert k. induction s as [|x s IH]; intros k Hk.
  - simpl in Hk. by replace k with 0 by lia.
  - destruct k as [|k].
    + change ((x :: s) ++ t) with (x :: (s ++ t)).
      rewrite !replace_from_pair_here.
      assert (match s ++ t with y :: _ => Ascii.eqb y b | [] => false end
              = match s with y :: _ => Ascii.eqb y b | [] => false end) as ->.
      { destruct s as [|y s]; [|done]. destruct t as [|z t]; [done|].
        simpl. apply Ascii.eqb_neq. intros ->. by destruct Ht. }
      destruct (Ascii.eqb x a && _) eqn:E.
      * apply IH. destruct s; [by rewrite andb_false_r in E | simpl; lia].
      * simpl. f_equal. apply IH. lia.
    + simpl. apply IH. simpl in Hk. lia.
Qed.

Lemma replace_pair_app (a b : ascii) (s t : str) :
  hd_error t <> Some b ->
  Py.replace (s ++ t) [a; b] [] = Py.replace s [a; b] [] ++ Py.replace t [a; b] [].
Proof. intros Ht. apply replace_from_pair_app; [done | lia]. Qed.

(** [replace] with a two-character pattern and nothing to put in its
    place removes the pairs found from left to right. *)
Lemma replace_pair_without (a b : ascii) (s : str) :
  Py.replace s [a; b] [] = without_pair a b s.
Proof.
  unfold Py.replace.
  assert (forall n s, length s <= n ->
            Py.replace_from [a; b] [] 0 s = without_pair a b s) as H.
  { clear s. induction n as [|n IH]; intros s Hn.
    - destruct s; [done | simpl in Hn; lia].
    - destruct s as [|x [|y t]]; [done | |];
        rewrite replace_from_pair_here; [by rewrite andb_false_r|].
      change (without_pair a b (x :: y :: t))
        with (if Ascii.eqb x a && Ascii.eqb y b then without_pair a b t
              else x :: without_pair a b (y :: t)).
      simpl in Hn. destruct (Ascii.eqb x a && Ascii.eqb y b).
      + change (Py.replace_from [a; b] [] 1 (y :: t))
          with (Py.replace_from [a; b] [] 0 t).
        apply IH. lia.
      + f_equal. apply IH. simpl. lia. }
  by apply (H (length s)).
Qed.

Lemma strip_doublequotes_without (s : str) :
  strip_doublequotes s = without_quotes s.
Proof. apply replace_char. Qed.

Lemma strip_comments_without (s : str) :
  strip_comments s = Py.strip (without_markers s).
Proof.
  unfold strip_comments, without_markers.
  change (txt "/*") with ["/"%char; "*"%char].
  change (txt "*/") with ["*"%char; "/"%char].
  by rewrite !replace_pair_without.
Qed.

(** The comment of a line written [/* c */]. *)
Lemma strip_comments_wrapped (c : str) :
  strip_comments (txt "/* " ++ c ++ txt " */") = strip_comments c.
Proof.
  unfold strip_comments.
  assert (forall u, Py.replace (u ++ txt " */") (txt "/*") []
                    = Py.replace u (txt "/*") [] ++ txt " */") as R1.
  { intros u. exact (replace_pair_app "/" "*" u (txt " */") ltac:(done)). }
  assert (forall u, Py.replace (u ++ txt " */") (txt "*/") []
                    = Py.replace u (txt "*/") [] ++ txt " ") as R2.
  { intros u. exact (replace_pair_app "*" "/" u (txt " */") ltac:(done)). }
  change (Py.replace (txt "/* " ++ c ++ txt " */") (txt "/*") [])
    with (" "%char :: Py.replace (c ++ txt " */") (txt "/*") []).
  rewrite R1. set (c1 := Py.replace c (txt "/*") []).
  change (Py.replace (" "%char :: c1 ++ txt " */") (txt "*/") [])
    with (" "%char :: Py.replace (c1 ++ txt " */") (txt "*/") []).
  rewrite R2.
  by apply (strip_spaces (txt " ") _ (txt " ")).
Qed.

(** ** The tokenizer *)

Lemma interpret_line_parts (line : str) :
  interpret_line line
  = match map Py.strip (Py.split (Py.strip (drop_newlines line)) "="%char) with
    | p0 :: p1 :: _ => line_of p0 p1
    | _ => Raise IndexError
    end.
Proof.
  unfold interpret_line, line_of, drop_newlines.
  by destruct (map Py.strip (Py.split _ "="%char)) as [|p0 [|p1 r]].
Qed.

Lemma line_of_one (p0 v : str) :
  ";"%char ∉ v ->
  line_of p0 (Py.strip v) = Ok (mkLine p0 (strip_doublequotes (Py.strip v)) []).
Proof. intros Hv. unfold line_of. by rewrite pieces_only. Qed.

Lemma line_of_two (p0 v c : str) :
  ";"%char ∉ v -> ";"%char ∉ c ->
  line_of p0 (Py.strip (v ++ ";"%char :: c))
  = Ok (mkLine p0 (strip_doublequotes (Py.strip v))
          (strip_doublequotes (strip_comments (Py.strip c)))).
Proof.
  intros Hv Hc. unfold line_of.
  by rewrite pieces_first, pieces_last.
Qed.

Lemma line_of_more (p0 v c r : str) :
  ";"%char ∉ v -> ";"%char ∉ c ->
  line_of p0 (Py.strip (v ++ ";"%char :: c ++ ";"%char :: r))
  = Ok (mkLine p0 (strip_doublequotes (Py.strip v)) []).
Proof.
  intros Hv Hc. unfold line_of.
  rewrite pieces_first, pieces_next by done.
  pose proof (split_nonempty (Py.rstrip r) ";"%char) as Hne.
  by destruct (Py.split (Py.rstrip r) ";"%char).
Qed.

Lemma drop_newlines_app (s t : str) :
  drop_newlines (s ++ t) = drop_newlines s ++ drop_newlines t.
Proof. apply replace_char_app. Qed.

Lemma drop_newlines_cons (c : ascii) (s : str) :
  c <> Py.nl -> drop_newlines (c :: s) = c :: drop_newlines s.
Proof. apply replace_char_cons. Qed.

Lemma drop_newlines_id (s : str) : Py.nl ∉ s -> drop_newlines s = s.
Proof. apply replace_char_id. Qed.

(** A line with a single "=": the two sides, stripped, are the parts. *)
Lemma interpret_line_one_eq (k m : str) :
  "="%char ∉ k -> "="%char ∉ m ->
  interpret_line (k ++ "="%char :: m)
  = line_of (Py.strip (drop_newlines k)) (Py.strip (drop_newlines m)).
Proof.
  intros Hk Hm. rewrite interpret_line_parts.
  rewrite drop_newlines_app, drop_newlines_cons by done.
  rewrite pieces_first, pieces_last;
    [done | by apply replace_char_notin | done | by apply replace_char_notin].
Qed.

(** A line with a further "=": what follows it never reaches the result. *)
Lemma interpret_line_two_eq (k m r : str) :
  "="%char ∉ k -> "="%char ∉ m ->
  interpret_line (k ++ "="%char :: m ++ "="%char :: r)
  = line_of (Py.strip (drop_newlines k)) (Py.strip (drop_newlines m)).
Proof.
  intros Hk Hm. rewrite interpret_line_parts.
  rewrite drop_newlines_app, drop_newlines_cons by done.
  rewrite drop_newlines_app, drop_newlines_cons by done.
  rewrite pieces_first, pieces_next;
    [| done | by apply replace_char_notin | done | by apply replace_char_notin].
  done.
Qed.

Lemma line_of_ok (p0 p1 : str) :
  exists v c, line_of p0 p1 = Ok (mkLine p0 v c).
Proof.
  unfold line_of.
  pose proof (split_nonempty p1 ";"%char) as Hne.
  destruct (Py.split p1 ";"%char) as [|o0 os]; [done|]. simpl.
  destruct os as [|o1 [|o2 os]]; simpl; eauto.
Qed.

Lemma spaces_notin (c : ascii) (w : str) :
  Py.isspace c = false -> forallb Py.isspace w = true -> c ∉ w.
Proof.
  intros Hc Hw Hin. rewrite forallb_forall in Hw.
  apply list_elem_of_In, Hw in Hin. congruence.
Qed.

Lemma token_spec (s : str) :
  token s = true -> ("="%char ∉ s) /\ (";"%char ∉ s) /\ (Py.nl ∉ s).
Proof.
  unfold token. rewrite !andb_true_iff, !negb_true_iff.
  intros [[H1 H2] H3]. by rewrite <- !contains_char.
Qed.

Lemma strip_trimmed (a b : ascii) (s : str) :
  Py.isspace a = false -> Py.isspace b = false ->
  Py.strip (a :: s ++ [b]) = a :: s ++ [b].
Proof.
  intros Ha Hb. unfold Py.strip. simpl. rewrite Ha.
  change (a :: s ++ [b]) with ((a :: s) ++ b :: []).
  by rewrite rstrip_nonspace.
Qed.

(** Membership goals over concatenations of fields and literals. *)
Ltac notin :=
  repeat first
    [ assumption
    | apply contains_char; reflexivity
    | apply spaces_notin; [reflexivity | assumption]
    | apply not_elem_of_app; split
    | apply not_elem_of_cons; split
    | apply not_elem_of_nil
    | done ].

(** C1: a well-formed line [K = V; /* C */] is read as the triple of the
    key [K] trimmed, the value [V] (trimmed) with every double quote
    removed, and the comment [C] with its markers "/*" and "*/" removed
    wherever they stand, then trimmed, then with every double quote
    removed; a line [K = V;] or [K = V] without a comment part has the
    same key and value and the empty comment. The line may end with a
    newline or other blanks [eol]. The three fields are stated with
    [without_quotes] and [without_markers], which filter the text
    themselves: neither goes through [strip_doublequotes],
    [strip_comments] or [replace]. *)
Theorem interpret_line_well_formed (K V C eol : str) :
  token K = true -> token V = true -> token C = true ->
  forallb Py.isspace eol = true ->
  interpret_line (K ++ txt " = " ++ V ++ txt "; /* " ++ C ++ txt " */" ++ eol)
  = Ok (mkLine (Py.strip K) (without_quotes (Py.strip V))
          (without_quotes (Py.strip (without_markers C))))
  /\ interpret_line (K ++ txt " = " ++ V ++ txt ";" ++ eol)
     = Ok (mkLine (Py.strip K) (without_quotes (Py.strip V)) [])
  /\ interpret_line (K ++ txt " = " ++ V ++ eol)
     = Ok (mkLine (Py.strip K) (without_quotes (Py.strip V)) []).
Proof.
  intros (HK1 & HK2 & HK3)%token_spec (HV1 & HV2 & HV3)%token_spec
         (HC1 & HC2 & HC3)%token_spec Heol.
  rewrite <- strip_comments_without, <- !strip_doublequotes_without.
  pose proof (replace_char_spaces eol Py.nl Heol) as Heol'.
  assert (Py.strip (drop_newlines (K ++ [" "%char])) = Py.strip K) as EK.
  { unfold drop_newlines. rewrite replace_char_id by notin.
    by apply (strip_spaces [] K [" "%char]). }
  assert (forall x, Py.strip (" "%char :: x) = Py.strip x) as Elead.
  { intros x. rewrite <- (app_nil_r x) at 1.
    by apply (strip_spaces [" "%char] x []). }
  repeat split.
  - change (K ++ txt " = " ++ V ++ txt "; /* " ++ C ++ txt " */" ++ eol)
      with (K ++ [" "%char] ++ "="%char ::
              " "%char :: V ++ txt "; /* " ++ C ++ txt " */" ++ eol).
    rewrite app_assoc, interpret_line_one_eq by notin.
    rewrite EK. f_equal.
    assert (drop_newlines
              (" "%char :: V ++ txt "; /* " ++ C ++ txt " */" ++ eol)
            = (" "%char :: V) ++ ";"%char ::
                txt " " ++ (txt "/* " ++ C ++ txt " */") ++ drop_newlines eol)
      as ->.
    { rewrite drop_newlines_cons, !drop_newlines_app by done.
      rewrite (drop_newlines_id V), (drop_newlines_id C),
        (drop_newlines_id (txt "; /* ")), (drop_newlines_id (txt " */"))
        by notin.
      simpl. by rewrite <- ?app_assoc. }
    rewrite line_of_two by notin.
    rewrite Elead, strip_spaces by done.
    assert (Py.strip (txt "/* " ++ C ++ txt " */") = txt "/* " ++ C ++ txt " */")
      as ->.
    { change (txt "/* " ++ C ++ txt " */")
        with ("/"%char :: txt "* " ++ C ++ txt " *" ++ ["/"%char]).
      rewrite !app_assoc. rewrite strip_trimmed by done. done. }
    by rewrite strip_comments_wrapped.
  - change (K ++ txt " = " ++ V ++ txt ";" ++ eol)
      with (K ++ [" "%char] ++ "="%char :: " "%char :: V ++ txt ";" ++ eol).
    rewrite app_assoc, interpret_line_one_eq by notin.
    rewrite EK.
    assert (drop_newlines (" "%char :: V ++ txt ";" ++ eol)
            = (" "%char :: V) ++ ";"%char :: drop_newlines eol) as ->.
    { rewrite drop_newlines_cons, !drop_newlines_app by done.
      rewrite (drop_newlines_id V), (drop_newlines_id (txt ";")) by notin.
      simpl. by rewrite <- ?app_assoc. }
    rewrite line_of_two by notin.
    by rewrite Elead, (strip_all_spaces (drop_newlines eol)) by exact Heol'.
  - change (K ++ txt " = " ++ V ++ eol)
      with (K ++ [" "%char] ++ "="%char :: " "%char :: V ++ eol).
    rewrite app_assoc, interpret_line_one_eq by notin.
    rewrite EK.
    assert (Py.strip (drop_newlines (" "%char :: V ++ eol)) = Py.strip V) as E.
    { change (" "%char :: V ++ eol) with ([" "%char] ++ V ++ eol).
      rewrite !drop_newlines_app. unfold drop_newlines at 2.
      rewrite (replace_char_id V) by notin.
      by apply strip_spaces. }
    rewrite E. rewrite line_of_one; [done|].
    done.
Qed.

(** The three forms of a line with the key [  StatusDetails], the value
    ["not_idle"] in double quotes and the comment ["STATUS_/*SUBMITTED"]
    in double quotes with a marker inside, and the triples read from
    them. *)
Lemma interpret_line_well_formed_witness :
  let K := txt "  StatusDetails" in
  let V := Py.dquote :: txt "not_idle" ++ [Py.dquote] in
  let C := Py.dquote :: txt "STATUS_/*SUBMITTED" ++ [Py.dquote] in
  (token K = true /\ token V = true /\ token C = true
   /\ forallb Py.isspace [Py.nl] = true)
  /\ interpret_line
       (K ++ txt " = " ++ V ++ txt "; /* " ++ C ++ txt " */" ++ [Py.nl])
     = Ok (mkLine (txt "StatusDetails") (txt "not_idle")
             (txt "STATUS_SUBMITTED"))
  /\ interpret_line (K ++ txt " = " ++ V ++ txt ";" ++ [Py.nl])
     = Ok (mkLine (txt "StatusDetails") (txt "not_idle") [])
  /\ interpret_line (K ++ txt " = " ++ V ++ [Py.nl])
     = Ok (mkLine (txt "StatusDetails") (txt "not_idle") []).
Proof.
  split; [repeat split; reflexivity|].
  exact (interpret_line_well_formed
           (txt "  StatusDetails")
           (Py.dquote :: txt "not_idle" ++ [Py.dquote])
           (Py.dquote :: txt "STATUS_/*SUBMITTED" ++ [Py.dquote]) [Py.nl]
           eq_refl eq_refl eq_refl eq_refl).
Defined.

(** C2, as the program behaves: the line is split at every "="; the key
    is the trimmed text left of the first "=", and the value and the
    comment are read from the text between the first and the second "="
    alone. Whatever follows a second "=" has no influence on the result. *)
Theorem interpret_line_second_eq_ignored (K M R : str) :
  Py.contains K (txt "=") = false -> Py.contains M (txt "=") = false ->
  exists l,
    interpret_line (K ++ txt "=" ++ M) = Ok l
    /\ key l = Py.strip (drop_newlines K)
    /\ interpret_line (K ++ txt "=" ++ M ++ txt "=" ++ R) = Ok l.
Proof.
  intros HK%contains_char HM%contains_char.
  destruct (line_of_ok (Py.strip (drop_newlines K))
              (Py.strip (drop_newlines M))) as (v & c & E).
  exists (mkLine (Py.strip (drop_newlines K)) v c). repeat split.
  - by rewrite <- E, <- interpret_line_one_eq.
  - by rewrite <- E, <- (interpret_line_two_eq K M R).
Qed.

Lemma interpret_line_second_eq_ignored_witness :
  (Py.contains (txt "Note ") (txt "=") = false
   /\ Py.contains (txt " a") (txt "=") = false)
  /\ exists l,
       interpret_line (txt "Note " ++ txt "=" ++ txt " a") = Ok l
       /\ key l = Py.strip (drop_newlines (txt "Note "))
       /\ interpret_line
            (txt "Note " ++ txt "=" ++ txt " a" ++ txt "=" ++ txt "b; /* c */")
          = Ok l.
Proof.
  split; [split; reflexivity|].
  apply (interpret_line_second_eq_ignored
           (txt "Note ") (txt " a") (txt "b; /* c */")); reflexivity.
Defined.

(** C2 fails as stated: on [Note = a=b; /* c */] the remainder right of
    the first "=" is [ a=b; /* c */], which read as a whole has the value
    [a=b] and the comment [c]; the tokenizer returns the value [a] and the
    empty comment. *)
Lemma interpret_line_not_first_eq_only :
  let line := txt "Note = a=b; /* c */" in
  after_first line "="%char = txt " a=b; /* c */"
  /\ line_of (txt "Note") (Py.strip (after_first line "="%char))
     = Ok (mkLine (txt "Note") (txt "a=b") (txt "c"))
  /\ interpret_line line = Ok (mkLine (txt "Note") (txt "a") []).
Proof. repeat split; vm_compute; reflexivity. Qed.

(** C3, as the program behaves: when the right-hand side holds more than
    one ";", the value is its first segment and the comment is empty;
    the second segment and everything after it are discarded. *)
Theorem interpret_line_many_semicolons (K V C R : str) :
  Py.contains K (txt "=") = false ->
  Py.contains (V ++ txt ";" ++ C ++ txt ";" ++ R) (txt "=") = false ->
  Py.contains V (txt ";") = false -> Py.contains C (txt ";") = false ->
  interpret_line (K ++ txt "=" ++ V ++ txt ";" ++ C ++ txt ";" ++ R)
  = Ok (mkLine (Py.strip (drop_newlines K))
          (strip_doublequotes (Py.strip (drop_newlines V))) []).
Proof.
  intros HK%contains_char HM%contains_char HV%contains_char HC%contains_char.
  change (K ++ txt "=" ++ V ++ txt ";" ++ C ++ txt ";" ++ R)
    with (K ++ "="%char :: (V ++ txt ";" ++ C ++ txt ";" ++ R)).
  rewrite interpret_line_one_eq by done.
  change (V ++ txt ";" ++ C ++ txt ";" ++ R)
    with (V ++ ";"%char :: C ++ ";"%char :: R).
  rewrite drop_newlines_app, drop_newlines_cons by done.
  rewrite drop_newlines_app, drop_newlines_cons by done.
  apply line_of_more; by apply replace_char_notin.
Qed.

Lemma interpret_line_many_semicolons_witness :
  (Py.contains (txt "Note ") (txt "=") = false
   /\ Py.contains (txt " a" ++ txt ";" ++ txt " /* c */" ++ txt ";" ++ txt " d")
        (txt "=") = false
   /\ Py.contains (txt " a") (txt ";") = false
   /\ Py.contains (txt " /* c */") (txt ";") = false)
  /\ interpret_line
       (txt "Note " ++ txt "=" ++ txt " a" ++ txt ";" ++ txt " /* c */"
          ++ txt ";" ++ txt " d")
     = Ok (mkLine (Py.strip (drop_newlines (txt "Note ")))
             (strip_doublequotes (Py.strip (drop_newlines (txt " a")))) []).
Proof.
  split; [repeat split; reflexivity|].
  apply (interpret_line_many_semicolons
           (txt "Note ") (txt " a") (txt " /* c */") (txt " d")); reflexivity.
Defined.

(** C3 fails as stated: on [Note = a; /* c */; d] the second segment is
    [/* c */], yet the comment returned is empty, not [c]. *)
Lemma interpret_line_second_segment_dropped :
  let line := txt "Note = a; /* c */; d" in
  map Py.strip (Py.split (txt "a; /* c */; d") ";"%char)
  = [txt "a"; txt "/* c */"; txt "d"]
  /\ strip_doublequotes (strip_comments (txt "/* c */")) = txt "c"
  /\ interpret_line line = Ok (mkLine (txt "Note") (txt "a") []).
Proof. repeat split; vm_compute; reflexivity. Qed.

(** C4, as the program behaves: a line without "=" makes the tokenizer
    fail with the index-out-of-range error of [parts[1]]; the program has
    no malformed-line error of its own. *)
Theorem interpret_line_no_eq (line : str) :
  Py.contains line (txt "=") = false ->
  interpret_line line = Raise IndexError.
Proof.
  intros H%contains_char. rewrite interpret_line_parts.
  rewrite pieces_only; [done|]. by apply replace_char_notin.
Qed.

Lemma interpret_line_no_eq_witness :
  Py.contains (txt "  NodesTotal 10;" ++ [Py.nl]) (txt "=") = false
  /\ interpret_line (txt "  NodesTotal 10;" ++ [Py.nl]) = Raise IndexError.
Proof.
  split; [reflexivity|].
  apply (interpret_line_no_eq (txt "  NodesTotal 10;" ++ [Py.nl])).
  reflexivity.
Defined.

(** C4 fails as stated: the failure on a line without "=" is the
    index-out-of-range error the claim excludes. *)
Lemma interpret_line_index_error :
  Py.contains (txt "  NodesTotal 10;") (txt "=") = false
  /\ interpret_line (txt "  NodesTotal 10;") = Raise IndexError
  /\ (forall e, interpret_line (txt "  NodesTotal 10;") = Raise e ->
        e = IndexError).
Proof.
  repeat split; try (vm_compute; reflexivity).
  intros e. vm_compute. congruence.
Qed.

(** ** The loop of [process] *)

Arguments txt : simpl never.

Lemma run_app (st : parse_state) (a b : list str) :
  run st (a ++ b) = st' ← run st a; run st' b.
Proof.
  revert st. induction a as [|l a IH]; intros st; simpl; [done|].
  destruct (step st l); simpl; [apply IH | done].
Qed.

Lemma step_closes (st : parse_state) (line : str) :
  closes line = true -> step st line = close_block st.
Proof.
  unfold closes, step. intros [H1 H2]%andb_true_iff.
  apply negb_true_iff in H1. by rewrite H1, H2.
Qed.

(** Inversion of a successful monadic computation, one bind at a time. *)
Ltac bind_inv H :=
  repeat match type of H with
  | (mbind _ ?m) = Ok _ =>
      let E := fresh "E" in
      destruct m eqn:E; simpl in H; [|discriminate H]
  | (if ?c then _ else _) = Ok _ => destruct c; simpl in H
  | Raise _ = Ok _ => discriminate H
  | mret _ = Ok _ => injection H as H
  | Ok _ = Ok _ => injection H as H
  end.

(** A line that does not close a block leaves the records alone. *)
Lemma step_open (st st' : parse_state) (line : str) :
  closes line = false -> step st line = Ok st' ->
  dag_status st' = dag_status st
  /\ node_statuses st' = node_statuses st
  /\ status_end st' = status_end st.
Proof.
  unfold closes, step. intros Hc H.
  destruct (Py.startswith line (txt "[") || Py.contains line (txt "}")) eqn:E1.
  { injection H as <-. done. }
  change (Py.startswith line (txt "]") = false) in Hc. rewrite Hc in H.
  destruct (Py.contains line (txt "{")).
  { injection H as <-. done. }
  destruct (store_contents st).
  - destruct (interpret_line line); simpl in H; [|done].
    injection H as <-. done.
  - injection H as <-. done.
Qed.

Lemma run_open (st st' : parse_state) (lines : list str) :
  forallb (fun l => negb (closes l)) lines = true -> run st lines = Ok st' ->
  dag_status st' = dag_status st
  /\ node_statuses st' = node_statuses st
  /\ status_end st' = status_end st.
Proof.
  revert st. induction lines as [|l lines IH]; intros st Hl H; simpl in *.
  - injection H as <-. done.
  - apply andb_true_iff in Hl as [Hl1 Hl2]. apply negb_true_iff in Hl1.
    destruct (step st l) as [s1|] eqn:E; simpl in H; [|done].
    destruct (step_open _ _ _ Hl1 E) as (E1 & E2 & E3).
    rewrite <- E1, <- E2, <- E3. by apply IH.
Qed.

(** Closing a block empties the dictionary and clears the flag. *)
Lemma close_block_reset (st st' : parse_state) :
  close_block st = Ok st' -> contents st' = ∅ /\ store_contents st' = false.
Proof.
  unfold close_block. intros H.
  destruct (getitem (contents st) (txt "Type")) as [ty|]; simpl in H; [|done].
  repeat case_decide; bind_inv H; by subst st'.
Qed.

(** What a closed block adds to the node list. *)
Lemma close_block_nodes (st st' : parse_state) :
  close_block st = Ok st' ->
  exists ty, contents st !! txt "Type" = Some ty
  /\ if decide (value ty = txt "NodeStatus")
     then exists n, node_statuses st' = node_statuses st ++ [n]
     else node_statuses st' = node_statuses st.
Proof.
  unfold close_block. intros H.
  destruct (getitem (contents st) (txt "Type")) as [ty|] eqn:E;
    simpl in H; [|done].
  exists ty. split.
  { unfold getitem in E. destruct (contents st !! txt "Type"); congruence. }
  destruct (decide (value ty = txt "DagStatus")) as [E1|E1].
  { rewrite decide_False by (rewrite E1; done).
    bind_inv H. by subst st'. }
  destruct (decide (value ty = txt "NodeStatus")) as [E2|E2].
  { bind_inv H. subst st'. simpl. eauto. }
  case_decide; bind_inv H. by subst st'.
Qed.

(** What a closed block does to the DAG record. *)
Lemma close_block_dag (st st' : parse_state) (ty : Line) :
  close_block st = Ok st' -> contents st !! txt "Type" = Some ty ->
  value ty <> txt "DagStatus" -> dag_status st' = dag_status st.
Proof.
  intros H E Hty. unfold close_block in H.
  assert (getitem (contents st) (txt "Type") = Ok ty) as G
    by (unfold getitem; by rewrite E).
  rewrite G in H. simpl in H.
  rewrite (decide_False (P := value ty = txt "DagStatus")) in H by done.
  repeat case_decide; bind_inv H; by subst st'.
Qed.

(** Records found earlier do not influence how the rest is read. *)
Lemma close_block_frame (F : frame) (st : parse_state) :
  close_block (with_frame F st) = with_frame F <$> close_block st.
Proof.
  unfold close_block. simpl.
  destruct (getitem (contents st) (txt "Type")) as [ty|]; simpl; [|done].
  repeat case_decide;
    repeat (match goal with
            | |- context [mbind _ ?m] => destruct m; simpl; [|done]
            end);
    try done.
  unfold with_frame. simpl. by rewrite app_assoc.
Qed.

Lemma step_frame (F : frame) (st : parse_state) (line : str) :
  step (with_frame F st) line = with_frame F <$> step st line.
Proof.
  unfold step.
  destruct (Py.startswith line (txt "[") || Py.contains line (txt "}")); [done|].
  destruct (Py.startswith line (txt "]")); [apply close_block_frame|].
  destruct (Py.contains line (txt "{")); [done|]. simpl.
  destruct (store_contents st); [|done].
  by destruct (interpret_line line).
Qed.

Lemma run_frame (F : frame) (st : parse_state) (lines : list str) :
  run (with_frame F st) lines = with_frame F <$> run st lines.
Proof.
  revert st. induction lines as [|l lines IH]; intros st; simpl; [done|].
  rewrite step_frame. destruct (step st l); simpl; [apply IH | done].
Qed.

(** A state between two blocks is the initial state, framed. *)
Lemma between_blocks (st : parse_state) :
  contents st = ∅ -> store_contents st = false ->
  st = with_frame (frame_of st) initial.
Proof.
  destruct st as [d ns e c b]. simpl. intros -> ->.
  unfold with_frame, frame_of. simpl. by rewrite app_nil_r.
Qed.

(** ** Blocks *)

Lemma block_type_body (b : block) (s : parse_state) :
  run initial (body b) = Ok s ->
  block_type b = value <$> contents s !! txt "Type".
Proof. unfold block_type. by intros ->. Qed.

(** A block read on its own. *)
Lemma block_run (b : block) (st : parse_state) :
  is_block b = true -> run initial (block_lines b) = Ok st ->
  contents st = ∅ /\ store_contents st = false
  /\ length (node_statuses st)
     = (if has_type (txt "NodeStatus") b then 1 else 0)
  /\ (has_type (txt "DagStatus") b = false -> dag_status st = None).
Proof.
  unfold is_block, block_lines. intros [Hb Hc]%andb_true_iff H.
  rewrite run_app in H.
  destruct (run initial (body b)) as [s1|] eqn:E1; simpl in H; [|done].
  rewrite step_closes in H by done.
  destruct (close_block s1) as [s2|] eqn:E2; simpl in H; [|done].
  injection H as ->.
  destruct (run_open _ _ _ Hb E1) as (Hd & Hn & _). simpl in Hd, Hn.
  destruct (close_block_reset _ _ E2) as [-> ->].
  destruct (close_block_nodes _ _ E2) as (ty & Hty & Hnodes).
  unfold has_type. rewrite (block_type_body b s1 E1), Hty. simpl.
  repeat split.
  - destruct (decide (value ty = txt "NodeStatus")) as [Et|Et].
    + destruct Hnodes as [n ->]. rewrite Hn, bool_decide_eq_true_2; [done|].
      by rewrite Et.
    + rewrite Hnodes, Hn, bool_decide_eq_false_2; [done|]. congruence.
  - intros Hdag%bool_decide_eq_false.
    rewrite (close_block_dag _ _ ty E2 Hty); [done|]. congruence.
Qed.

(** A file read block after block, from a state between two blocks. *)
Lemma blocks_run (bs : list block) (trailer : list str)
    (st0 st : parse_state) :
  forallb is_block bs = true ->
  forallb (fun l => negb (closes l)) trailer = true ->
  contents st0 = ∅ -> store_contents st0 = false ->
  run st0 (file_of bs trailer) = Ok st ->
  node_statuses st = node_statuses st0 ++ flat_map block_nodes bs
  /\ Forall (fun b => length (block_nodes b)
                      = if has_type (txt "NodeStatus") b then 1 else 0) bs
  /\ (forallb (fun b => negb (has_type (txt "DagStatus") b)) bs = true ->
      dag_status st = dag_status st0).
Proof.
  intros Hbs Htr. revert st0.
  induction bs as [|b bs IH]; intros st0 Hc Hs H.
  - unfold file_of in H. simpl in H.
    destruct (run_open _ _ _ Htr H) as (Hd & Hn & _).
    simpl. rewrite app_nil_r. done.
  - simpl in Hbs. apply andb_true_iff in Hbs as [Hb Hbs].
    unfold file_of in H. simpl in H. rewrite <- app_assoc in H.
    fold (file_of bs trailer) in H.
    rewrite run_app in H.
    destruct (run st0 (block_lines b)) as [s1|] eqn:E1; simpl in H; [|done].
    rewrite (between_blocks st0 Hc Hs), run_frame in E1.
    destruct (run initial (block_lines b)) as [r1|] eqn:Er; simpl in E1; [|done].
    injection E1 as <-.
    destruct (block_run b r1 Hb Er) as (Hc1 & Hs1 & Hlen & Hdag).
    destruct (IH Hbs (with_frame (frame_of st0) r1) Hc1 Hs1 H)
      as (Hn & Hall & Hd).
    assert (block_nodes b = node_statuses r1) as Eb
      by (unfold block_nodes; by rewrite Er).
    repeat split.
    + rewrite Hn. simpl. by rewrite Eb, app_assoc.
    + constructor; [by rewrite Eb | done].
    + simpl. intros [Hb1 Hb2]%andb_true_iff. apply negb_true_iff in Hb1.
      rewrite (Hd Hb2). simpl. by rewrite (Hdag Hb1).
Qed.

(** Every file is a sequence of blocks followed by lines that close
    nothing. *)
Lemma file_blocks (sfile : list str) :
  exists bs trailer,
    sfile = file_of bs trailer
    /\ forallb is_block bs = true
    /\ forallb (fun l => negb (closes l)) trailer = true.
Proof.
  induction sfile as [|l sfile (bs & trailer & -> & Hbs & Htr)].
  - by exists [], [].
  - destruct (closes l) eqn:El.
    + exists (mk_block [] l :: bs), trailer. repeat split; [|done].
      simpl. unfold is_block at 1. simpl. by rewrite El.
    + destruct bs as [|b bs].
      * exists [], (l :: trailer). repeat split. simpl. by rewrite El.
      * exists (mk_block (l :: body b) (close b) :: bs), trailer.
        repeat split; [|done]. simpl in *.
        apply andb_true_iff in Hbs as [Hb Hbs]. rewrite Hbs, andb_true_r.
        unfold is_block in *. simpl. by rewrite El.
Qed.

Lemma close_block_unknown (st : parse_state) :
  unknown_type (contents st) = true ->
  close_block st
  = Raise (KeyError (match contents st !! txt "Type" with
                     | Some _ => txt "Unknown block Type"
                     | None => txt "Type"
                     end)).
Proof.
  unfold unknown_type, close_block.
  destruct (contents st !! txt "Type") as [ty|] eqn:E.
  - assert (getitem (contents st) (txt "Type") = Ok ty) as ->
      by (unfold getitem; by rewrite E).
    simpl. rewrite !andb_true_iff, !negb_true_iff, !bool_decide_eq_false.
    intros (H1 & H2 & H3 & _). by rewrite !decide_False.
  - assert (getitem (contents st) (txt "Type") = Raise (KeyError (txt "Type")))
      as -> by (unfold getitem; by rewrite E).
    done.
Qed.

(** C5: when a block closes whose [Type] is missing or is none of
    "DagStatus", "NodeStatus", "StatusEnd", the file fails with the
    program's unknown-block-type error, a [KeyError] (raised by the lookup
    of the missing key, or explicitly with the message "Unknown block
    Type"); the lines after it are not read, and nothing after the header
    line is printed: no record reaches [print_table]. *)
Theorem process_unknown_block_type (w : env) (f : str) (summary : bool)
    (before : list str) (line : str) (after : list str) (st : parse_state) :
  files w f = Some (before ++ line :: after) ->
  run initial before = Ok st ->
  closes line = true ->
  unknown_type (contents st) = true ->
  process w f summary
  = ([header f],
     Raise (KeyError (match contents st !! txt "Type" with
                      | Some _ => txt "Unknown block Type"
                      | None => txt "Type"
                      end))).
Proof.
  intros Hf Hrun Hc Hu. unfold process. rewrite Hf.
  rewrite run_app, Hrun. simpl.
  by rewrite step_closes, close_block_unknown.
Qed.

(** C6, as the program behaves: a file read to its end without a block of
    type "DagStatus" (in particular a file without blocks) fails with the
    [AttributeError] of the assignment to [dag_status.node_statuses] on
    [None]; the program has no missing-DAG-status error of its own. *)
Theorem process_without_dag_status (w : env) (f : str) (summary : bool)
    (bs : list block) (trailer : list str) (st : parse_state) :
  forallb is_block bs = true ->
  forallb (fun l => negb (closes l)) trailer = true ->
  forallb (fun b => negb (has_type (txt "DagStatus") b)) bs = true ->
  files w f = Some (file_of bs trailer) ->
  run initial (file_of bs trailer) = Ok st ->
  process w f summary = ([header f], Raise AttributeError).
Proof.
  intros Hbs Htr Hnd Hf Hrun. unfold process. rewrite Hf, Hrun.
  destruct (blocks_run bs trailer initial st Hbs Htr eq_refl eq_refl Hrun)
    as (_ & _ & Hd).
  by rewrite (Hd Hnd).
Qed.

(** C10: for a file that parses, made of the blocks [bs] in this order
    (and lines after the last of them), the node list passed to
    [print_table], which is also the list attached to the DAG record, is
    the concatenation, in the order of the blocks, of the node records of
    each block: one record for a block of type "NodeStatus" and none for
    any other, wherever the "DagStatus" block stands among them. *)
Theorem process_node_list (w : env) (f : str) (summary : bool)
    (bs : list block) (trailer : list str) (st : parse_state)
    (d : DagStatus.t) :
  forallb is_block bs = true ->
  forallb (fun l => negb (closes l)) trailer = true ->
  files w f = Some (file_of bs trailer) ->
  run initial (file_of bs trailer) = Ok st ->
  dag_status st = Some d ->
  let nodes := flat_map block_nodes bs in
  let d' := DagStatus.set_node_statuses d nodes in
  process w f summary
  = (header f :: (print_table w d' nodes (status_end st) summary).1,
     (print_table w d' nodes (status_end st) summary).2)
  /\ DagStatus.node_statuses d' = nodes
  /\ Forall (fun b => length (block_nodes b)
                      = if has_type (txt "NodeStatus") b then 1 else 0) bs.
Proof.
  intros Hbs Htr Hf Hrun Hd nodes d'.
  destruct (blocks_run bs trailer initial st Hbs Htr eq_refl eq_refl Hrun)
    as (Hn & Hall & _).
  simpl in Hn. repeat split; [|done].
  unfold process. rewrite Hf, Hrun, Hd, Hn. fold nodes. fold d'.
  by destruct (print_table w d' nodes (status_end st) summary).
Qed.

(** ** Floats: an integer other than zero converts to a float other than
    zero *)

Local Open Scope Z_scope.

Lemma shr_1_m (mrs : shr_record) :
  0 <= shr_m mrs -> shr_m (shr_1 mrs) = shr_m mrs / 2.
Proof.
  destruct mrs as [m r s]. simpl. intros Hm.
  rewrite <- Z.div2_div. destruct m as [|p|p]; [done| |lia].
  by destruct p.
Qed.

Lemma iter_shr_1_m (p : positive) (mrs : shr_record) :
  0 <= shr_m mrs -> shr_m (SpecFloat.iter_pos shr_1 p mrs) = shr_m mrs / 2 ^ Zpos p.
Proof.
  revert mrs. induction p as [p IH|p IH|]; intros mrs Hm; simpl SpecFloat.iter_pos.
  - assert (0 <= shr_m (shr_1 mrs)) as H1
      by (rewrite shr_1_m by done; apply Z.div_pos; lia).
    assert (0 <= shr_m (SpecFloat.iter_pos shr_1 p (shr_1 mrs))) as H2
      by (rewrite IH by done; apply Z.div_pos; lia).
    rewrite IH, IH, shr_1_m by done.
    rewrite !Zdiv.Zdiv_Zdiv by lia. f_equal.
    replace (Z.pos p~1) with (1 + Z.pos p + Z.pos p) by lia.
    rewrite !Z.pow_add_r, Z.pow_1_r by lia. ring.
  - assert (0 <= shr_m (SpecFloat.iter_pos shr_1 p mrs)) as H2
      by (rewrite IH by done; apply Z.div_pos; lia).
    rewrite IH, IH by done.
    rewrite !Zdiv.Zdiv_Zdiv by lia. f_equal.
    replace (Z.pos p~0) with (Z.pos p + Z.pos p) by lia.
    rewrite !Z.pow_add_r by lia. done.
  - by apply shr_1_m.
Qed.

Lemma digits2_pos_le (m : positive) :
  2 ^ (Z.pos (digits2_pos m) - 1) <= Z.pos m.
Proof.
  induction m as [m IH|m IH|]; simpl digits2_pos; [| |done].
  - rewrite Pos2Z.inj_succ.
    replace (Z.succ (Z.pos (digits2_pos m)) - 1)
      with (1 + (Z.pos (digits2_pos m) - 1)) by lia.
    rewrite Z.pow_add_r by lia. lia.
  - rewrite Pos2Z.inj_succ.
    replace (Z.succ (Z.pos (digits2_pos m)) - 1)
      with (1 + (Z.pos (digits2_pos m) - 1)) by lia.
    rewrite Z.pow_add_r by lia. lia.
Qed.

Lemma shr_record_of_loc_m (m : Z) (l : location) :
  shr_m (shr_record_of_loc m l) = m.
Proof. by destruct l as [|[]]. Qed.

Lemma round_nearest_even_ge (m : Z) (l : location) :
  m <= round_nearest_even m l.
Proof.
  destruct l as [|[]]; simpl; try lia. destruct (Z.even m); lia.
Qed.

(** Shifting to the exponent of the format never loses a whole mantissa,
    as long as the exponent is not below the least one. *)
Lemma shr_fexp_pos (m e : Z) (l : location) :
  0 < m -> emin Float.prec Float.emax <= e ->
  0 < shr_m (shr_fexp Float.prec Float.emax m e l).1
  /\ emin Float.prec Float.emax <= (shr_fexp Float.prec Float.emax m e l).2.
Proof.
  intros Hm He. unfold shr_fexp, shr.
  destruct m as [|mp|mp]; [lia| |lia]. simpl Zdigits2.
  pose proof (digits2_pos_le mp) as Hd.
  unfold fexp, emin, Float.prec, Float.emax in *.
  destruct (Z.max (Z.pos (digits2_pos mp) + e - 53) (3 - 1024 - 53) - e)
    as [|p|p] eqn:En; simpl; rewrite ?shr_record_of_loc_m; try lia.
  rewrite iter_shr_1_m by (rewrite shr_record_of_loc_m; lia).
  rewrite shr_record_of_loc_m. split; [|lia].
  apply Z.div_str_pos. split; [lia|].
  transitivity (2 ^ (Z.pos (digits2_pos mp) - 1)); [|done].
  apply Z.pow_le_mono_r; lia.
Qed.

Lemma binary_round_aux_nonzero (sx : bool) (mz : positive) (ez : Z) (s : bool) :
  emin Float.prec Float.emax <= ez ->
  binary_round_aux Float.prec Float.emax sx (Z.pos mz) ez loc_Exact
  <> S754_zero s.
Proof.
  intros He. unfold binary_round_aux.
  destruct (shr_fexp_pos (Z.pos mz) ez loc_Exact) as [H1 H2]; [lia|done|].
  destruct (shr_fexp Float.prec Float.emax (Z.pos mz) ez loc_Exact)
    as [mrs' e']. simpl in H1, H2.
  pose proof (round_nearest_even_ge (shr_m mrs') (loc_of_shr_record mrs')).
  destruct (shr_fexp_pos
              (round_nearest_even (shr_m mrs') (loc_of_shr_record mrs'))
              e' loc_Exact) as [H3 _]; [lia|done|].
  destruct (shr_fexp Float.prec Float.emax _ e' loc_Exact) as [mrs'' e''].
  simpl in H3. destruct (shr_m mrs''); [lia| |done].
  by destruct (e'' <=? Float.emax - Float.prec).
Qed.

Lemma of_int_nonzero (z : Z) (f : spec_float) :
  z <> 0 -> Float.of_int z = Ok f -> Float.is_zero f = false.
Proof.
  intros Hz. unfold Float.of_int, binary_normalize.
  assert (forall sx m s,
            binary_round Float.prec Float.emax sx m 0 <> S754_zero s) as Hr.
  { intros sx m s. unfold binary_round, shl_align.
    destruct (fexp Float.prec Float.emax (Z.pos (digits2_pos m) + 0) - 0)
      as [|d|d] eqn:E; try (apply binary_round_aux_nonzero; done).
    apply binary_round_aux_nonzero. unfold fexp. lia. }
  destruct z as [|m|m]; [done| |].
  - pose proof (Hr false m) as Hm.
    destruct (binary_round Float.prec Float.emax false m 0);
      intros H; try done; injection H as <-; try done.
    by destruct (Hm s).
  - pose proof (Hr true m) as Hm.
    destruct (binary_round Float.prec Float.emax true m 0);
      intros H; try done; injection H as <-; try done.
    by destruct (Hm s).
Qed.

Lemma of_int_zero : Float.of_int 0 = Ok (S754_zero false).
Proof. reflexivity. Qed.

Local Close Scope Z_scope.

(** ** The sample file *)

Example run_sample_file : run initial sample_file = Ok sample_state.
Proof. vm_compute. reflexivity. Qed.

Lemma process_unknown_block_type_witness :
  (files sample_env (txt "bogus.status")
   = Some (body bogus_block ++ close bogus_block :: block_lines dag_block)
   /\ run initial (body bogus_block) = Ok bogus_state
   /\ closes (close bogus_block) = true
   /\ unknown_type (contents bogus_state) = true)
  /\ process sample_env (txt "bogus.status") false
     = ([header (txt "bogus.status")],
        Raise (KeyError (match contents bogus_state !! txt "Type" with
                         | Some _ => txt "Unknown block Type"
                         | None => txt "Type"
                         end))).
Proof.
  split; [repeat split; vm_compute; reflexivity|].
  apply (process_unknown_block_type sample_env (txt "bogus.status") false
           (body bogus_block) (close bogus_block) (block_lines dag_block)
           bogus_state); vm_compute; reflexivity.
Defined.

Example process_bogus_file :
  process sample_env (txt "bogus.status") false
  = ([header (txt "bogus.status")], Raise (KeyError (txt "Unknown block Type"))).
Proof. vm_compute. reflexivity. Qed.

Lemma process_without_dag_status_witness :
  let bs := [node_block "A" "3" "STATUS_SUBMITTED" "not_idle"; end_block] in
  let w := mk_env (fun _ => Some (file_of bs [])) (txt "24 80") in
  (forallb is_block bs = true
   /\ forallb (fun b => negb (has_type (txt "DagStatus") b)) bs = true
   /\ is_ok (run initial (file_of bs [])) = true)
  /\ process w (txt "nodes.status") false
     = ([header (txt "nodes.status")], Raise AttributeError).
Proof.
  split; [repeat split; vm_compute; reflexivity|].
  apply (process_without_dag_status
           (mk_env (fun _ => Some (file_of [node_block "A" "3" "STATUS_SUBMITTED" "not_idle"; end_block] [])) (txt "24 80"))
           (txt "nodes.status") false
           [node_block "A" "3" "STATUS_SUBMITTED" "not_idle"; end_block] []
           (mk_state None [sample_node_a] (Some sample_end) ∅ false));
    vm_compute; reflexivity.
Defined.

(** C6 fails as stated: a file without blocks does not fail with an error
    about the missing DAG status; it fails with the [AttributeError] of an
    attribute assignment on [None]. *)
Lemma process_empty_file :
  files sample_env (txt "empty.status") = Some []
  /\ process sample_env (txt "empty.status") false
     = ([header (txt "empty.status")], Raise AttributeError).
Proof. split; vm_compute; reflexivity. Qed.

Lemma process_node_list_witness :
  (forallb is_block sample_blocks = true
   /\ files sample_env (txt "job.status") = Some (file_of sample_blocks [])
   /\ run initial (file_of sample_blocks []) = Ok sample_state)
  /\ let nodes := flat_map block_nodes sample_blocks in
     let d' := DagStatus.set_node_statuses sample_dag nodes in
     process sample_env (txt "job.status") false
     = (header (txt "job.status")
          :: (print_table sample_env d' nodes (Some sample_end) false).1,
        (print_table sample_env d' nodes (Some sample_end) false).2)
     /\ DagStatus.node_statuses d' = nodes
     /\ Forall (fun b => length (block_nodes b)
                         = if has_type (txt "NodeStatus") b then 1 else 0)
          sample_blocks.
Proof.
  split; [repeat split; vm_compute; reflexivity|].
  apply (process_node_list sample_env (txt "job.status") false
           sample_blocks [] sample_state sample_dag); vm_compute; reflexivity.
Defined.

Example sample_block_nodes :
  flat_map block_nodes sample_blocks = [sample_node_a; sample_node_b].
Proof. vm_compute. reflexivity. Qed.

(** ** Several files *)

(** C9, as the program behaves: the files are processed in order, and
    the first one that fails ends the run with its exception; what the
    files before it printed stays, and no file after it is opened. The
    program catches no exception anywhere. *)
Theorem main_stops_at_first_failure (w : env) (summary : bool)
    (good : list str) (f : str) (rest : list str) (e : exn) :
  forallb (fun p => is_ok (process w p summary).2) good = true ->
  (process w f summary).2 = Raise e ->
  main w (good ++ f :: rest) summary
  = (flat_map (fun p => (process w p summary).1) good
       ++ (process w f summary).1,
     Raise e).
Proof.
  intros Hgood Hf. induction good as [|p good IH]; simpl.
  - destruct (process w f summary) as [out r]. simpl in Hf. by subst r.
  - simpl in Hgood. apply andb_true_iff in Hgood as [Hp Hgood].
    rewrite (IH Hgood). destruct (process w p summary) as [out [[]|e']];
      [|done]. simpl. by rewrite app_assoc.
Qed.

Lemma main_stops_at_first_failure_witness :
  (forallb (fun p => is_ok (process sample_env p true).2) [txt "job.status"]
   = true
   /\ (process sample_env (txt "empty.status") true).2 = Raise AttributeError)
  /\ main sample_env
       ([txt "job.status"] ++ txt "empty.status" :: [txt "job.status"]) true
     = (flat_map (fun p => (process sample_env p true).1) [txt "job.status"]
          ++ (process sample_env (txt "empty.status") true).1,
        Raise AttributeError).
Proof.
  split; [split; vm_compute; reflexivity|].
  apply (main_stops_at_first_failure sample_env true
           [txt "job.status"] (txt "empty.status") [txt "job.status"]
           AttributeError); vm_compute; reflexivity.
Defined.

(** C9 fails as stated: with an unreadable file first and a good file
    second, the run ends with the [IOError] of the first, and nothing of
    the second, which on its own is processed without error, is printed. *)
Lemma main_read_failure_aborts :
  files sample_env (txt "missing.status") = None
  /\ is_ok (process sample_env (txt "job.status") true).2 = true
  /\ main sample_env [txt "missing.status"; txt "job.status"] true
     = ([header (txt "missing.status")], Raise IOError).
Proof. repeat split; vm_compute; reflexivity. Qed.

(** ** Derived fields *)

Lemma is_running_spec (n : NodeStatus.t) :
  DagStatus.is_running n = bool_decide (running n).
Proof.
  unfold DagStatus.is_running, running.
  destruct (decide (NodeStatus.node_status n = txt "STATUS_SUBMITTED"));
    destruct (decide (NodeStatus.status_details n = txt "not_idle"));
    repeat first [ rewrite bool_decide_eq_true_2 by tauto
                 | rewrite bool_decide_eq_false_2 by tauto ];
    done.
Qed.

Lemma count_running (l : list NodeStatus.t) :
  length (List.filter DagStatus.is_running l) = length (filter running l).
Proof.
  induction l as [|n l IH]; [done|].
  simpl. rewrite filter_cons, is_running_spec.
  destruct (decide (running n)).
  - rewrite bool_decide_eq_true_2 by done. simpl. by rewrite IH.
  - by rewrite bool_decide_eq_false_2.
Qed.

(** C7: for every file that parses, the DAG record handed to the renderer
    carries the node list of the file, and its [job_procs_running] is the
    number of node records of the file with [node_status]
    "STATUS_SUBMITTED" and [status_details] "not_idle"; when that number
    is 1 and [nodes_total] is 10, [nodes_running_percent] is "10.0". *)
Theorem job_procs_running_count (w : env) (f : str) (sfile : list str)
    (st : parse_state) (d : DagStatus.t) :
  files w f = Some sfile ->
  run initial sfile = Ok st ->
  dag_status st = Some d ->
  is_ok (terminal_size w) = true ->
  let nodes := node_statuses st in
  let d' := DagStatus.set_node_statuses d nodes in
  process w f true = ([header f; SummaryRow d'], Ok tt)
  /\ DagStatus.job_procs_running d' = Z.of_nat (length (filter running nodes))
  /\ (length (filter running nodes) = 1 ->
      DagStatus.nodes_total d = 10%Z ->
      DagStatus.job_procs_running d' = 1%Z
      /\ DagStatus.nodes_running_percent d' = Ok (txt "10.0")).
Proof.
  intros Hf Hrun Hd Htty nodes d'.
  assert (DagStatus.job_procs_running d'
          = Z.of_nat (length (filter running nodes))) as E.
  { unfold DagStatus.job_procs_running. simpl. by rewrite count_running. }
  split; [|split; [done|]].
  - unfold process. rewrite Hf, Hrun, Hd. unfold print_table.
    by destruct (terminal_size w).
  - intros H1 H10. split; [by rewrite E, H1|].
    unfold DagStatus.nodes_running_percent.
    rewrite E, H1. simpl DagStatus.nodes_total. rewrite H10.
    vm_compute. reflexivity.
Qed.

Lemma job_procs_running_count_witness :
  (files sample_env (txt "job.status") = Some sample_file
   /\ run initial sample_file = Ok sample_state
   /\ dag_status sample_state = Some sample_dag
   /\ is_ok (terminal_size sample_env) = true
   /\ length (filter running (node_statuses sample_state)) = 1
   /\ DagStatus.nodes_total sample_dag = 10%Z)
  /\ let d' := DagStatus.set_node_statuses sample_dag
                 (node_statuses sample_state) in
     DagStatus.job_procs_running d' = 1%Z
     /\ DagStatus.nodes_running_percent d' = Ok (txt "10.0").
Proof.
  split; [repeat split; vm_compute; reflexivity|].
  apply (job_procs_running_count sample_env (txt "job.status") sample_file
           sample_state sample_dag);
    vm_compute; reflexivity.
Defined.

(** C8: once the ten counters have been converted by [int], the
    constructor of the DAG record
    - fails with [ZeroDivisionError] when [nodes_total] is 0;
    - otherwise stores [100. * nodes_done / nodes_total], computed on
      floats and formatted with one decimal, as [nodes_done_percent]; for
      [nodes_total] 10 and [nodes_done] 3 this text is "30.0".
    The integers are assumed to be within the range of the floats. *)
Theorem nodes_done_percent_spec
    (timestamp dag_status s_total s_done s_pre s_queued s_post s_ready
     s_unready s_failed s_held s_idle : str)
    (total done pre queued post ready unready failed held idle : Z)
    (f_total f_done : spec_float) :
  Py.int s_total = Ok total -> Py.int s_done = Ok done ->
  Py.int s_pre = Ok pre -> Py.int s_queued = Ok queued ->
  Py.int s_post = Ok post -> Py.int s_ready = Ok ready ->
  Py.int s_unready = Ok unready -> Py.int s_failed = Ok failed ->
  Py.int s_held = Ok held -> Py.int s_idle = Ok idle ->
  Float.of_int total = Ok f_total -> Float.of_int done = Ok f_done ->
  let r := DagStatus.init timestamp dag_status s_total s_done s_pre s_queued
             s_post s_ready s_unready s_failed s_held s_idle in
  (total = 0%Z -> r = Raise ZeroDivisionError)
  /\ (total <> 0%Z ->
      exists d, r = Ok d
        /\ DagStatus.nodes_total d = total /\ DagStatus.nodes_done d = done
        /\ DagStatus.nodes_done_percent d
           = Float.format_1f
               (Float.div (Float.mul Float.hundred f_done) f_total))
  /\ (total = 10%Z -> done = 3%Z ->
      exists d, r = Ok d /\ DagStatus.nodes_done_percent d = txt "30.0").
Proof.
  intros H1 H2 H3 H4 H5 H6 H7 H8 H9 H10 Ft Fd r.
  assert (r = (p ← Float.percent done total;
               mret (DagStatus.mk timestamp (strip_doublequotes dag_status)
                       total done pre queued post ready unready failed
                       held idle p 0 []))) as Er.
  { unfold r, DagStatus.init.
    by rewrite H1, H2, H3, H4, H5, H6, H7, H8, H9, H10. }
  rewrite Er. unfold Float.percent. rewrite Ft, Fd. simpl.
  repeat split.
  - intros ->. rewrite of_int_zero in Ft. by injection Ft as <-.
  - intros Hz. unfold Float.truediv.
    rewrite (of_int_nonzero total f_total Hz Ft). simpl. eauto.
  - intros -> ->. vm_compute in Ft, Fd.
    injection Ft as <-. injection Fd as <-. eexists. split; [done|].
    vm_compute. reflexivity.
Qed.

Lemma nodes_done_percent_spec_witness :
  exists d,
    DagStatus.init (txt "Fri May  9 17:22:18 2014") (quoted "STATUS_SUBMITTED ()")
      (txt "10") (txt "3") (txt "0") (txt "1") (txt "0") (txt "0") (txt "6")
      (txt "0") (txt "0") (txt "0") = Ok d
    /\ DagStatus.nodes_done_percent d = txt "30.0".
Proof.
  apply (nodes_done_percent_spec
           (txt "Fri May  9 17:22:18 2014") (quoted "STATUS_SUBMITTED ()")
           (txt "10") (txt "3") (txt "0") (txt "1") (txt "0") (txt "0")
           (txt "6") (txt "0") (txt "0") (txt "0")
           10%Z 3%Z 0%Z 1%Z 0%Z 0%Z 6%Z 0%Z 0%Z 0%Z
           (S754_finite false 5629499534213120 (-49))
           (S754_finite false 6755399441055744 (-51)));
    reflexivity.
Defined.

Example nodes_total_zero :
  DagStatus.init (txt "t") (txt "s")
    (txt "0") (txt "0") (txt "0") (txt "0") (txt "0") (txt "0") (txt "0")
    (txt "0") (txt "0") (txt "0") = Raise ZeroDivisionError.
Proof. vm_compute. reflexivity. Qed.

(** * Further properties of the program *)

(** ** The tokenizer on arbitrary lines *)

(** Every line either has no "=" and is refused, or is read from the text
    left of its first "=" and the text up to its second "=". *)
Lemma interpret_line_cases (line : str) :
  (Py.contains line (txt "=") = false /\ interpret_line line = Raise IndexError)
  \/ (Py.contains line (txt "=") = true
      /\ exists K M, ("="%char ∉ K)
         /\ interpret_line line
            = line_of (Py.strip (drop_newlines K)) (Py.strip (drop_newlines M))).
Proof.
  destruct (Py.contains line (txt "=")) eqn:E.
  - right. split; [done|].
    assert ("="%char ∈ line) as Hin.
    { destruct (decide ("="%char ∈ line)) as [|Hn]; [done|].
      apply contains_char in Hn.
      change (Py.contains line (txt "=") = false) in Hn. congruence. }
    apply list_elem_of_split_l in Hin as (K & X & -> & HK).
    exists K. destruct (decide ("="%char ∈ X)) as [HX|HX].
    + apply list_elem_of_split_l in HX as (M & R & -> & HM).
      exists M. split; [done|]. by apply interpret_line_two_eq.
    + exists X. split; [done|]. by apply interpret_line_one_eq.
  - left. split; [done|].
    apply (contains_char line "="%char) in E.
    rewrite interpret_line_parts, pieces_only; [done|].
    by apply replace_char_notin.
Qed.

Lemma strip_doublequotes_clean (s : str) :
  Py.contains (strip_doublequotes s) [Py.dquote] = false.
Proof.
  apply contains_char. unfold strip_doublequotes.
  rewrite replace_char, list_elem_of_In, List.filter_In.
  intros [_ H]. by rewrite Ascii.eqb_refl in H.
Qed.

Lemma line_of_shape (p0 p1 : str) (l : Line) :
  line_of p0 p1 = Ok l ->
  key l = p0
  /\ Py.contains (value l) [Py.dquote] = false
  /\ Py.contains (comment l) [Py.dquote] = false.
Proof.
  unfold line_of.
  pose proof (split_nonempty p1 ";"%char) as Hne.
  destruct (Py.split p1 ";"%char) as [|o0 os]; [done|]. simpl.
  destruct os as [|o1 [|o2 os]]; simpl; intros [= <-]; simpl;
    repeat split; try apply strip_doublequotes_clean; done.
Qed.

(** X1: the tokenizer accepts exactly the lines that contain "=", and
    refuses every other line with [IndexError], never with another
    exception. *)
Theorem interpret_line_accepts (line : str) :
  match interpret_line line with
  | Ok _ => Py.contains line (txt "=") = true
  | Raise e => e = IndexError /\ Py.contains line (txt "=") = false
  end.
Proof.
  destruct (interpret_line_cases line) as [[E ->]|(E & K & M & _ & ->)];
    [done|].
  by destruct (line_of_ok (Py.strip (drop_newlines K))
                 (Py.strip (drop_newlines M))) as (v & c & ->).
Qed.

(** X2: blanks around a line, among them the newline that ends it, do
    not change what the tokenizer returns. *)
Theorem interpret_line_ignores_blanks (w1 line w2 : str) :
  forallb Py.isspace w1 = true -> forallb Py.isspace w2 = true ->
  interpret_line (w1 ++ line ++ w2) = interpret_line line.
Proof.
  intros H1 H2.
  assert (Py.strip (Py.replace (w1 ++ line ++ w2) [Py.nl] [])
          = Py.strip (Py.replace line [Py.nl] [])) as E.
  { rewrite !replace_char_app.
    apply strip_spaces; by apply replace_char_spaces. }
  unfold interpret_line. by rewrite E.
Qed.

Lemma interpret_line_ignores_blanks_witness :
  (forallb Py.isspace (txt "    ") = true
   /\ forallb Py.isspace [" "%char; Py.nl] = true)
  /\ interpret_line (txt "    " ++ txt "NodesTotal = 10;" ++ [" "%char; Py.nl])
     = interpret_line (txt "NodesTotal = 10;").
Proof.
  split; [split; reflexivity|].
  apply (interpret_line_ignores_blanks
           (txt "    ") (txt "NodesTotal = 10;") [" "%char; Py.nl]);
    reflexivity.
Defined.

(** X3: in every triple the tokenizer returns, the key is trimmed and
    free of "=", and neither the value nor the comment holds a double
    quote. *)
Theorem interpret_line_fields_clean (line : str) :
  match interpret_line line with
  | Ok l =>
      Py.strip (key l) = key l
      /\ Py.contains (key l) (txt "=") = false
      /\ Py.contains (value l) [Py.dquote] = false
      /\ Py.contains (comment l) [Py.dquote] = false
  | Raise _ => True
  end.
Proof.
  destruct (interpret_line_cases line) as [[_ ->]|(_ & K & M & HK & ->)];
    [done|].
  destruct (line_of _ _) as [l|] eqn:E; [|done].
  apply line_of_shape in E as (-> & Hv & Hc).
  repeat split; try done.
  - apply strip_idem.
  - apply (contains_char _ "="%char). unfold Py.strip.
    by apply rstrip_notin, lstrip_notin, replace_char_notin.
Qed.

(** ** The block parser on arbitrary files *)

Lemma getitem_lookup (c : gmap str Line) (k : str) :
  getitem c k
  = match c !! k with Some l => Ok l | None => Raise (KeyError k) end.
Proof. done. Qed.

(** X4: when a block of a known type closes without one of the keys its
    record needs, the file fails with a [KeyError] that names the first
    missing key, in the order the constructor is given its arguments. *)
Theorem close_block_missing_field (st : parse_state) (ty : Line) (k : str) :
  contents st !! txt "Type" = Some ty ->
  first_missing (contents st) (required (value ty)) = Some k ->
  close_block st = Raise (KeyError k).
Proof.
  intros Hty Hk. unfold close_block.
  rewrite (getitem_lookup _ (txt "Type")), Hty. simpl.
  unfold required, first_missing in Hk.
  repeat case_decide; simpl in Hk; try done;
    rewrite !getitem_lookup;
    repeat match type of Hk with
    | context [bool_decide (contents st !! ?key = None)] =>
        destruct (contents st !! key) eqn:?;
        [ rewrite bool_decide_eq_false_2 in Hk by done
        | rewrite bool_decide_eq_true_2 in Hk by done;
          by injection Hk as <- ];
        simpl in Hk |- *
    end; done.
Qed.

Lemma close_block_missing_field_witness :
  let ty := mkLine (txt "Type") (txt "NodeStatus") [] in
  let rc := mkLine (txt "RetryCount") (txt "0") [] in
  let st := mk_state None [] None
              (<[txt "RetryCount" := rc]> (<[txt "Type" := ty]> ∅)) true in
  (contents st !! txt "Type" = Some ty
   /\ first_missing (contents st) (required (value ty)) = Some (txt "Node"))
  /\ close_block st = Raise (KeyError (txt "Node")).
Proof.
  split; [split; vm_compute; reflexivity|].
  apply (close_block_missing_field
           (mk_state None [] None
              (<[txt "RetryCount" := mkLine (txt "RetryCount") (txt "0") []]>
                 (<[txt "Type" := mkLine (txt "Type") (txt "NodeStatus") []]> ∅))
              true)
           (mkLine (txt "Type") (txt "NodeStatus") []) (txt "Node"));
    vm_compute; reflexivity.
Defined.

Lemma set_store_same (st : parse_state) :
  set_store st (store_contents st) = st.
Proof. by destruct st. Qed.

(** With the flag clear, a quiet line changes nothing. *)
Lemma step_quiet (st : parse_state) (line : str) :
  store_contents st = false -> quiet line = true -> step st line = Ok st.
Proof.
  unfold quiet, opens, step.
  intros Hs [H1 H2]%andb_true_iff.
  apply negb_true_iff in H1. apply negb_true_iff in H2.
  rewrite H1, H2.
  destruct (Py.contains line (txt "{")); simpl.
  - by rewrite <- Hs, set_store_same.
  - by rewrite Hs.
Qed.

Lemma run_quiet (st : parse_state) (lines : list str) :
  store_contents st = false -> forallb quiet lines = true ->
  run st lines = Ok st.
Proof.
  intros Hs. induction lines as [|l lines IH]; simpl; [done|].
  intros [Hl Hls]%andb_true_iff. rewrite step_quiet by done. simpl. auto.
Qed.



(** X6: inside a block, the lines from one that contains "{" up to the
    next one that contains "}" (or starts with "[") are not tokenized:
    whatever stands between the two, the dictionary is unchanged and
    accumulation goes on after them. *)
Theorem run_skips_braces (st : parse_state) (l1 : str) (inner : list str)
    (l2 : str) :
  pauses l1 = true -> forallb quiet inner = true -> opens l2 = true ->
  run st (l1 :: inner ++ [l2]) = Ok (set_store st true).
Proof.
  unfold pauses, quiet, opens.
  intros [[H1 H2]%andb_true_iff H3]%andb_true_iff Hin H4.
  apply negb_true_iff in H1. apply negb_true_iff in H2.
  assert (step st l1 = Ok (set_store st false)) as E1.
  { unfold step. by rewrite H1, H2, H3. }
  change (run st (l1 :: inner ++ [l2]))
    with (st' ← step st l1; run st' (inner ++ [l2])).
  rewrite E1. simpl. rewrite run_app, run_quiet by done. simpl.
  unfold step. rewrite H4. by destruct st.
Qed.

Lemma run_skips_braces_witness :
  let st := mk_state None [] None
              (<[txt "Type" := mkLine (txt "Type") (txt "DagStatus") []]> ∅)
              true in
  (pauses (ln "  DagFiles = {") = true
   /\ forallb quiet [txt "    " ++ quoted "job.dag" ++ [Py.nl]; ln ""] = true
   /\ opens (ln "  };") = true)
  /\ run st (ln "  DagFiles = {"
               :: [txt "    " ++ quoted "job.dag" ++ [Py.nl]; ln ""]
               ++ [ln "  };"])
     = Ok (set_store st true).
Proof.
  split; [repeat split; reflexivity|].
  apply (run_skips_braces
           (mk_state None [] None
              (<[txt "Type" := mkLine (txt "Type") (txt "DagStatus") []]> ∅)
              true)
           (ln "  DagFiles = {")
           [txt "    " ++ quoted "job.dag" ++ [Py.nl]; ln ""]
           (ln "  };")); reflexivity.
Defined.

(** X7: inside a block, a plain line without "=" (an empty line, for
    one) ends the processing of the file with [IndexError]: the lines
    after it are not read and only the header line has been printed. *)
Theorem process_malformed_line (w : env) (f : str) (summary : bool)
    (before : list str) (line : str) (after : list str) (st : parse_state) :
  files w f = Some (before ++ line :: after) ->
  run initial before = Ok st ->
  store_contents st = true ->
  plain line = true ->
  Py.contains line (txt "=") = false ->
  process w f summary = ([header f], Raise IndexError).
Proof.
  unfold plain, opens.
  intros Hf Hrun Hs [[H1 H2]%andb_true_iff H3]%andb_true_iff He.
  apply negb_true_iff in H1. apply negb_true_iff in H2.
  apply negb_true_iff in H3.
  unfold process. rewrite Hf, run_app, Hrun. simpl.
  unfold step. rewrite H1, H2, H3, Hs.
  destruct (interpret_line_cases line) as [[_ ->]|[E _]]; [done|congruence].
Qed.

Lemma process_malformed_line_witness :
  let before := [ln "["; txt "  Type = " ++ quoted "NodeStatus" ++ ln ";"] in
  let w := mk_env (fun _ => Some (before ++ ln "" :: [ln "]"])) (txt "24 80") in
  (run initial before
   = Ok (mk_state None [] None
           (<[txt "Type" := mkLine (txt "Type") (txt "NodeStatus") []]> ∅) true)
   /\ plain (ln "") = true
   /\ Py.contains (ln "") (txt "=") = false)
  /\ process w (txt "gap.status") false
     = ([header (txt "gap.status")], Raise IndexError).
Proof.
  split; [repeat split; vm_compute; reflexivity|].
  apply (process_malformed_line
           (mk_env (fun _ => Some ([ln "["; txt "  Type = " ++ quoted "NodeStatus" ++ ln ";"] ++ ln "" :: [ln "]"])) (txt "24 80"))
           (txt "gap.status") false
           [ln "["; txt "  Type = " ++ quoted "NodeStatus" ++ ln ";"]
           (ln "") [ln "]"]
           (mk_state None [] None
              (<[txt "Type" := mkLine (txt "Type") (txt "NodeStatus") []]> ∅)
              true));
    vm_compute; reflexivity.
Defined.

(** ** Which records a file yields *)

(** The DAG record and the end record after a sequence of blocks: those
    of the last block that yields one, else the ones held before. *)
Lemma blocks_records (bs : list block) (trailer : list str)
    (st0 st : parse_state) :
  forallb is_block bs = true ->
  forallb (fun l => negb (closes l)) trailer = true ->
  contents st0 = ∅ -> store_contents st0 = false ->
  run st0 (file_of bs trailer) = Ok st ->
  dag_status st = or_else (last (omap block_dag bs)) (dag_status st0)
  /\ status_end st = or_else (last (omap block_end bs)) (status_end st0).
Proof.
  intros Hbs Htr. revert st0.
  induction bs as [|b bs IH]; intros st0 Hc Hs H.
  - unfold file_of in H. simpl in H.
    by destruct (run_open _ _ _ Htr H) as (-> & _ & ->).
  - simpl in Hbs. apply andb_true_iff in Hbs as [Hb Hbs].
    unfold file_of in H. simpl in H. rewrite <- app_assoc in H.
    fold (file_of bs trailer) in H. rewrite run_app in H.
    destruct (run st0 (block_lines b)) as [s1|] eqn:E1; simpl in H; [|done].
    rewrite (between_blocks st0 Hc Hs), run_frame in E1.
    destruct (run initial (block_lines b)) as [r1|] eqn:Er; simpl in E1; [|done].
    injection E1 as <-.
    destruct (block_run b r1 Hb Er) as (Hc1 & Hs1 & _ & _).
    destruct (IH Hbs (with_frame (frame_of st0) r1) Hc1 Hs1 H) as [-> ->].
    assert (block_dag b = dag_status r1) as Ed
      by (unfold block_dag; by rewrite Er).
    assert (block_end b = status_end r1) as Ee
      by (unfold block_end; by rewrite Er).
    assert (omap block_dag (b :: bs)
            = match block_dag b with
              | Some d => d :: omap block_dag bs
              | None => omap block_dag bs
              end) as -> by done.
    assert (omap block_end (b :: bs)
            = match block_end b with
              | Some e => e :: omap block_end bs
              | None => omap block_end bs
              end) as -> by done.
    rewrite Ed, Ee. unfold with_frame, frame_of. simpl. split.
    + destruct (dag_status r1) as [d|]; [|done].
      rewrite last_cons. by destruct (last (omap block_dag bs)).
    + destruct (status_end r1) as [e|]; [|done].
      rewrite last_cons. by destruct (last (omap block_end bs)).
Qed.

(** X8: a file may repeat the "DagStatus" block and the "StatusEnd"
    block; the record kept of each kind is the one of the last block of
    the file that yields it, and there is none when no block does. *)
Theorem run_last_block_wins (bs : list block) (trailer : list str)
    (st : parse_state) :
  forallb is_block bs = true ->
  forallb (fun l => negb (closes l)) trailer = true ->
  run initial (file_of bs trailer) = Ok st ->
  dag_status st = last (omap block_dag bs)
  /\ status_end st = last (omap block_end bs).
Proof.
  intros Hbs Htr H.
  destruct (blocks_records bs trailer initial st Hbs Htr eq_refl eq_refl H)
    as [-> ->].
  simpl. split.
  - by destruct (last (omap block_dag bs)).
  - by destruct (last (omap block_end bs)).
Qed.

(** X9: the header line with the file name is the first thing [process]
    prints, whatever happens to the file afterwards. *)
Theorem process_prints_header_first (w : env) (f : str) (summary : bool) :
  head (process w f summary).1 = Some (header f).
Proof.
  unfold process. destruct (files w f) as [sfile|]; [|done].
  destruct (run initial sfile) as [st|]; [|done].
  destruct (dag_status st); [|done].
  by destruct (print_table _ _ _ _ _).
Qed.

(** X10: when every file of the command line is processed without error,
    the run succeeds and its output is the output of the files, one after
    the other in the order of the arguments. *)
Theorem main_all_files (w : env) (statusFile : list str) (summary : bool) :
  forallb (fun f => is_ok (process w f summary).2) statusFile = true ->
  main w statusFile summary
  = (flat_map (fun f => (process w f summary).1) statusFile, Ok tt).
Proof.
  induction statusFile as [|f rest IH]; simpl; [done|].
  intros [Hf Hrest]%andb_true_iff. rewrite (IH Hrest).
  by destruct (process w f summary) as [out [[]|e]].
Qed.

Lemma main_all_files_witness :
  forallb (fun f => is_ok (process sample_env f true).2)
    [txt "job.status"; txt "job.status"] = true
  /\ main sample_env [txt "job.status"; txt "job.status"] true
     = (flat_map (fun f => (process sample_env f true).1)
          [txt "job.status"; txt "job.status"], Ok tt).
Proof.
  split; [vm_compute; reflexivity|].
  apply (main_all_files sample_env [txt "job.status"; txt "job.status"] true).
  vm_compute. reflexivity.
Defined.

(** X11: a file with a DAG record but without an end record is rendered
    in summary mode; in full mode the node rows and the summary row are
    printed and then the run fails with [AttributeError], raised by
    [status_end.end_time] on [None]. *)
Theorem process_without_status_end (w : env) (f : str)
    (bs : list block) (trailer : list str) (st : parse_state)
    (d : DagStatus.t) :
  forallb is_block bs = true ->
  forallb (fun l => negb (closes l)) trailer = true ->
  files w f = Some (file_of bs trailer) ->
  run initial (file_of bs trailer) = Ok st ->
  dag_status st = Some d ->
  omap block_end bs = [] ->
  is_ok (terminal_size w) = true ->
  let d' := DagStatus.set_node_statuses d (node_statuses st) in
  process w f true = ([header f; SummaryRow d'], Ok tt)
  /\ process w f false
     = ([header f; JobRows (node_statuses st); SummaryRow d'],
        Raise AttributeError).
Proof.
  intros Hbs Htr Hf Hrun Hd Hend Htty d'.
  destruct (blocks_records bs trailer initial st Hbs Htr eq_refl eq_refl Hrun)
    as [_ He].
  rewrite Hend in He. simpl in He.
  unfold process. rewrite Hf, Hrun, Hd, He. unfold print_table.
  by destruct (terminal_size w).
Qed.

Lemma run_last_block_wins_witness :
  let late :=
    mk_block
      (map (fun l => if decide (l = ln "  NodesDone = 3;")
                     then ln "  NodesDone = 7;" else l) (body dag_block))
      (close dag_block) in
  let bs := [dag_block; end_block; late] in
  let st := mk_state
              (Some (DagStatus.mk (txt "Fri May  9 17:22:18 2014")
                       (txt "STATUS_SUBMITTED ()") 10 7 0 1 0 0 6 0 0 0
                       (txt "70.0") 0 []))
              [] (Some sample_end) ∅ false in
  (forallb is_block bs = true /\ run initial (file_of bs []) = Ok st)
  /\ dag_status st = last (omap block_dag bs)
  /\ status_end st = last (omap block_end bs).
Proof.
  split; [split; vm_compute; reflexivity|].
  apply (run_last_block_wins
           [dag_block; end_block;
            mk_block
              (map (fun l => if decide (l = ln "  NodesDone = 3;")
                             then ln "  NodesDone = 7;" else l)
                 (body dag_block))
              (close dag_block)] []);
    vm_compute; reflexivity.
Defined.

Lemma process_without_status_end_witness :
  let bs := [node_block "A" "3" "STATUS_SUBMITTED" "not_idle"; dag_block] in
  let w := mk_env (fun _ => Some (file_of bs [])) (txt "24 80") in
  let st := mk_state (Some sample_dag) [sample_node_a] None ∅ false in
  let d' := DagStatus.set_node_statuses sample_dag [sample_node_a] in
  (forallb is_block bs = true
   /\ run initial (file_of bs []) = Ok st
   /\ omap block_end bs = []
   /\ is_ok (terminal_size w) = true)
  /\ process w (txt "job.status") true
     = ([header (txt "job.status"); SummaryRow d'], Ok tt)
  /\ process w (txt "job.status") false
     = ([header (txt "job.status"); JobRows [sample_node_a]; SummaryRow d'],
        Raise AttributeError).
Proof.
  split; [repeat split; vm_compute; reflexivity|].
  apply (process_without_status_end
           (mk_env (fun _ => Some (file_of [node_block "A" "3" "STATUS_SUBMITTED" "not_idle"; dag_block] [])) (txt "24 80"))
           (txt "job.status")
           [node_block "A" "3" "STATUS_SUBMITTED" "not_idle"; dag_block] []
           (mk_state (Some sample_dag) [sample_node_a] None ∅ false)
           sample_dag);
    vm_compute; reflexivity.
Defined.

(** X12: a parsable file with a DAG record is not rendered when the size
    of the terminal cannot be read as two words (no terminal, for one):
    the header line is printed and the run fails with [ValueError]. *)
Theorem process_without_terminal (w : env) (f : str) (summary : bool)
    (sfile : list str) (st : parse_state) (d : DagStatus.t) :
  files w f = Some sfile ->
  run initial sfile = Ok st ->
  dag_status st = Some d ->
  Nat.eqb (length (Py.split_ws (stty_size w))) 2 = false ->
  process w f summary = ([header f], Raise ValueError).
Proof.
  intros Hf Hrun Hd Htty. unfold process. rewrite Hf, Hrun, Hd.
  unfold print_table, terminal_size.
  by destruct (Py.split_ws (stty_size w)) as [|r [|c [|x l]]].
Qed.

Lemma process_without_terminal_witness :
  let w := mk_env (files sample_env) [] in
  (files w (txt "job.status") = Some sample_file
   /\ run initial sample_file = Ok sample_state
   /\ Nat.eqb (length (Py.split_ws (stty_size w))) 2 = false)
  /\ process w (txt "job.status") true
     = ([header (txt "job.status")], Raise ValueError).
Proof.
  split; [repeat split; vm_compute; reflexivity|].
  apply (process_without_terminal (mk_env (files sample_env) [])
           (txt "job.status") true sample_file sample_state sample_dag);
    vm_compute; reflexivity.
Defined.

(** ** The constructors of the records *)

Lemma int_cases (s : str) :
  Py.int s = Raise ValueError \/ exists z, Py.int s = Ok z.
Proof.
  unfold Py.int.
  destruct (Py.strip s) as [|c t]; [by left|].
  destruct (Ascii.eqb c "-"); [|destruct (Ascii.eqb c "+")].
  - destruct t; [by left|]. destruct (Py.digits 0 _); eauto.
  - destruct t; [by left|]. destruct (Py.digits 0 _); eauto.
  - destruct (Py.digits 0 _); eauto.
Qed.

Lemma of_int_cases (z : Z) :
  Float.of_int z = Raise OverflowError \/ exists x, Float.of_int z = Ok x.
Proof.
  unfold Float.of_int.
  destruct (binary_normalize Float.prec Float.emax z 0 false); eauto.
Qed.

Lemma percent_cases (a b : Z) :
  match Float.percent a b with
  | Ok _ => b <> 0%Z
  | Raise e =>
      e = OverflowError \/ (e = ZeroDivisionError /\ b = 0%Z)
  end.
Proof.
  unfold Float.percent.
  destruct (of_int_cases a) as [->|[fa ->]]; simpl; [by left|].
  destruct (of_int_cases b) as [->|[fb Hb]]; simpl; [by left|].
  rewrite Hb. simpl. unfold Float.truediv.
  destruct (decide (b = 0%Z)) as [->|Hz].
  - rewrite of_int_zero in Hb. injection Hb as <-. simpl. by right.
  - by rewrite (of_int_nonzero b fb Hz Hb).
Qed.

(** X13: [NodeStatus.__init__] fails only with [ValueError], and exactly
    when one of the three counters is not an integer; in the record it
    builds, the name, the status and the details hold no double quote. *)
Theorem node_status_init_outcome
    (node node_status status_details rc jq jh : str) :
  match NodeStatus.init node node_status status_details rc jq jh with
  | Ok n =>
      Py.int rc = Ok (NodeStatus.retry_count n)
      /\ Py.int jq = Ok (NodeStatus.job_procs_queued n)
      /\ Py.int jh = Ok (NodeStatus.job_procs_held n)
      /\ Py.contains (NodeStatus.node n) [Py.dquote] = false
      /\ Py.contains (NodeStatus.node_status n) [Py.dquote] = false
      /\ Py.contains (NodeStatus.status_details n) [Py.dquote] = false
  | Raise e =>
      e = ValueError
      /\ is_ok (Py.int rc) && is_ok (Py.int jq) && is_ok (Py.int jh) = false
  end.
Proof.
  unfold NodeStatus.init.
  destruct (int_cases rc) as [->|[a ->]]; [done|].
  destruct (int_cases jq) as [->|[b ->]]; [done|].
  destruct (int_cases jh) as [->|[c ->]]; [done|].
  simpl. repeat split; apply strip_doublequotes_clean.
Qed.

(** X14: [DagStatus.__init__] fails with [ValueError] exactly when one
    of the ten counters is not an integer, whatever the other arguments
    are (also when [nodes_total] is 0); with ten integers it can only
    fail with [ZeroDivisionError], when [nodes_total] is 0, or with
    [OverflowError]. A record it builds has a [nodes_total] other than 0
    and a status without double quotes. *)
Theorem dag_status_init_outcome
    (timestamp dag_status s_total s_done s_pre s_queued s_post s_ready
     s_unready s_failed s_held s_idle : str) :
  let counters := [s_total; s_done; s_pre; s_queued; s_post; s_ready;
                   s_unready; s_failed; s_held; s_idle] in
  match DagStatus.init timestamp dag_status s_total s_done s_pre s_queued
          s_post s_ready s_unready s_failed s_held s_idle with
  | Ok d =>
      forallb (fun s => is_ok (Py.int s)) counters = true
      /\ Py.int s_total = Ok (DagStatus.nodes_total d)
      /\ DagStatus.nodes_total d <> 0%Z
      /\ Py.contains (DagStatus.dag_status d) [Py.dquote] = false
  | Raise e =>
      if forallb (fun s => is_ok (Py.int s)) counters
      then e = OverflowError
           \/ (e = ZeroDivisionError /\ Py.int s_total = Ok 0%Z)
      else e = ValueError
  end.
Proof.
  intros counters. unfold counters, DagStatus.init. simpl forallb.
  destruct (int_cases s_total) as [->|[total ->]]; [done|].
  destruct (int_cases s_done) as [->|[ndone ->]]; [done|].
  destruct (int_cases s_pre) as [->|[a3 ->]]; [done|].
  destruct (int_cases s_queued) as [->|[a4 ->]]; [done|].
  destruct (int_cases s_post) as [->|[a5 ->]]; [done|].
  destruct (int_cases s_ready) as [->|[a6 ->]]; [done|].
  destruct (int_cases s_unready) as [->|[a7 ->]]; [done|].
  destruct (int_cases s_failed) as [->|[a8 ->]]; [done|].
  destruct (int_cases s_held) as [->|[a9 ->]]; [done|].
  destruct (int_cases s_idle) as [->|[a10 ->]]; [done|].
  simpl. pose proof (percent_cases ndone total) as Hp.
  destruct (Float.percent ndone total) as [p|e]; simpl.
  - repeat split; try done. apply strip_doublequotes_clean.
  - destruct Hp as [->|[-> ->]]; [by left|by right].
Qed.

(** X15: for a record built by [DagStatus.__init__], whatever node list
    is attached to it afterwards, reading [nodes_running_percent] never
    divides by zero: it yields a text, or fails with [OverflowError] (a
    count of running nodes beyond the range of the floats). *)
Theorem nodes_running_percent_defined
    (timestamp dag_status s_total s_done s_pre s_queued s_post s_ready
     s_unready s_failed s_held s_idle : str) (d : DagStatus.t)
    (nodes : list NodeStatus.t) :
  DagStatus.init timestamp dag_status s_total s_done s_pre s_queued
    s_post s_ready s_unready s_failed s_held s_idle = Ok d ->
  DagStatus.nodes_running_percent (DagStatus.set_node_statuses d nodes)
  = Raise OverflowError
  \/ exists p,
       DagStatus.nodes_running_percent (DagStatus.set_node_statuses d nodes)
       = Ok p.
Proof.
  intros H.
  assert (DagStatus.nodes_total d <> 0%Z) as Hz.
  { unfold DagStatus.init in H. bind_inv H. subst d. simpl.
    match goal with
    | E : Float.percent ?a ?b = Ok _ |- _ =>
        pose proof (percent_cases a b) as Hp; by rewrite E in Hp
    end. }
  unfold DagStatus.nodes_running_percent. simpl DagStatus.nodes_total.
  pose proof (percent_cases
                (DagStatus.job_procs_running
                   (DagStatus.set_node_statuses d nodes))
                (DagStatus.nodes_total d)) as Hp.
  destruct (Float.percent _ _) as [p|e]; [eauto|].
  destruct Hp as [->|[_ Hp]]; [by left|done].
Qed.

Lemma nodes_running_percent_defined_witness :
  DagStatus.init (txt "Fri May  9 17:22:18 2014") (quoted "STATUS_SUBMITTED ()")
    (txt "10") (txt "3") (txt "0") (txt "1") (txt "0") (txt "0") (txt "6")
    (txt "0") (txt "0") (txt "0") = Ok sample_dag
  /\ (DagStatus.nodes_running_percent
        (DagStatus.set_node_statuses sample_dag [sample_node_a; sample_node_b])
      = Raise OverflowError
      \/ exists p,
           DagStatus.nodes_running_percent
             (DagStatus.set_node_statuses sample_dag
                [sample_node_a; sample_node_b]) = Ok p).
Proof.
  split; [vm_compute; reflexivity|].
  apply (nodes_running_percent_defined
           (txt "Fri May  9 17:22:18 2014") (quoted "STATUS_SUBMITTED ()")
           (txt "10") (txt "3") (txt "0") (txt "1") (txt "0") (txt "0")
           (txt "6") (txt "0") (txt "0") (txt "0")
           sample_dag [sample_node_a; sample_node_b]).
  vm_compute. reflexivity.
Defined.

(** ** The table *)

Lemma ljust_length (s : str) (w : nat) :
  length s <= w -> length (PyFmt.ljust s w) = w.
Proof.
  intros H. unfold PyFmt.ljust. rewrite length_app, repeat_length. lia.
Qed.

(** A row whose cells fit their columns is as long as the columns and the
    separators between them. *)
Lemma format_row_length (sep : str) (widths : list nat) (cells : list str) :
  Forall2 (fun c w => length c <= w) cells widths ->
  length (PyFmt.format_row sep widths cells)
  = sum_list widths + length sep * Nat.pred (length widths).
Proof.
  unfold PyFmt.format_row.
  induction 1 as [|c w cells widths Hc Hall IH]; [simpl; lia|].
  simpl zip_with. simpl PyFmt.join.
  destruct Hall as [|c' w' cells widths Hc' Hall]; simpl.
  - rewrite ljust_length by done. lia.
  - simpl in IH. rewrite !length_app, ljust_length, IH by done. simpl. lia.
Qed.




Lemma summary_cells (d : DagStatus.t) :
  collect (map (fun '(k, v) => v d) summary_dict)
  = p ← DagStatus.nodes_running_percent d;
    Ok [ DagStatus.dag_status d;
         PyFmt.str_int (DagStatus.nodes_total d);
         PyFmt.str_int (DagStatus.nodes_queued d);
         PyFmt.str_int (DagStatus.job_procs_idle d);
         PyFmt.str_int (DagStatus.job_procs_running d);
         p;
         PyFmt.str_int (DagStatus.nodes_failed d);
         PyFmt.str_int (DagStatus.nodes_done d);
         DagStatus.nodes_done_percent d ].
Proof.
  unfold summary_dict. cbn [map collect mbind result_bind mret result_ret].
  by destruct (DagStatus.nodes_running_percent d).
Qed.

(** X17: what [print_table] writes. When [nodes_running_percent] or the
    size of the terminal cannot be obtained, nothing is written and that
    exception is raised. Otherwise the summary mode writes 5 lines; the
    full mode writes one row per node among 12 other lines, or, without an
    end record, 9 other lines and the words "Status recorded at:" before
    it fails with [AttributeError]. *)
Theorem print_table_out_outcome (w : env) (d : DagStatus.t)
    (ns : list NodeStatus.t) (se : option StatusEnd.t) (summary : bool) :
  match DagStatus.nodes_running_percent d, terminal_size w with
  | Raise e, _ | Ok _, Raise e =>
      print_table_out w d ns se summary = (([], []), Raise e)
  | Ok _, Ok _ =>
      exists lines,
        print_table_out w d ns se summary
        = ((lines,
            if summary then []
            else match se with
                 | Some _ => []
                 | None => txt "Status recorded at:"
                 end),
           if summary then Ok tt
           else match se with
                | Some _ => Ok tt
                | None => Raise AttributeError
                end)
        /\ length lines
           = (if summary then 5
              else match se with
                   | Some _ => 12 + length ns
                   | None => 9 + length ns
                   end)
  end.
Proof.
  unfold print_table_out. rewrite summary_cells.
  destruct (DagStatus.nodes_running_percent d) as [p|e];
    cbn [mbind result_bind]; [|done].
  destruct (terminal_size w) as [[rows cols]|e]; [|done].
  cbv zeta. destruct summary; [by eexists|].
  destruct se as [e|]; eexists; (split; [reflexivity|]);
    rewrite !length_app, length_map; cbn [length]; lia.
Qed.

(** ** The fields of a block *)

Lemma step_plain (st : parse_state) (line : str) (t : Line) :
  store_contents st = true -> plain line = true ->
  interpret_line line = Ok t ->
  step st line
  = Ok (mk_state (dag_status st) (node_statuses st) (status_end st)
          (<[key t := t]> (contents st)) true).
Proof.
  unfold plain, opens, step.
  intros Hs [[H1 H2]%andb_true_iff H3]%andb_true_iff Ht.
  apply negb_true_iff in H1. apply negb_true_iff in H2.
  apply negb_true_iff in H3.
  by rewrite H1, H2, H3, Hs, Ht.
Qed.

(** X18: inside a block the field lines fill a dictionary: of two lines
    with the same key only the later one counts, and two lines with
    different keys may stand in either order. *)
Theorem block_fields_as_dictionary (st : parse_state) (l1 l2 : str)
    (t1 t2 : Line) :
  store_contents st = true ->
  plain l1 = true -> plain l2 = true ->
  interpret_line l1 = Ok t1 -> interpret_line l2 = Ok t2 ->
  (key t1 = key t2 -> run st [l1; l2] = run st [l2])
  /\ (key t1 <> key t2 -> run st [l1; l2] = run st [l2; l1]).
Proof.
  intros Hs P1 P2 T1 T2.
  assert (forall s l t, store_contents s = true -> plain l = true ->
            interpret_line l = Ok t ->
            run s [l]
            = Ok (mk_state (dag_status s) (node_statuses s) (status_end s)
                    (<[key t := t]> (contents s)) true)) as R1.
  { intros s l t H1 H2 H3. simpl. by rewrite (step_plain s l t). }
  change (run st [l1; l2]) with (run st ([l1] ++ [l2])).
  change (run st [l2; l1]) with (run st ([l2] ++ [l1])).
  rewrite !run_app, (R1 st l1 t1), (R1 st l2 t2) by done.
  cbn [mbind result_bind]. rewrite (R1 _ l2 t2), (R1 _ l1 t1) by done.
  cbn [dag_status node_statuses status_end contents]. split.
  - intros ->. by rewrite insert_insert_eq.
  - intros Hne. by rewrite insert_insert_ne.
Qed.

Lemma block_fields_as_dictionary_witness :
  let st := mk_state None [] None ∅ true in
  let l1 := ln "  NodesDone = 3;" in
  let l2 := ln "  NodesDone = 4;" in
  (plain l1 = true /\ plain l2 = true
   /\ interpret_line l1 = Ok (mkLine (txt "NodesDone") (txt "3") [])
   /\ interpret_line l2 = Ok (mkLine (txt "NodesDone") (txt "4") []))
  /\ run st [l1; l2] = run st [l2].
Proof.
  split; [repeat split; vm_compute; reflexivity|].
  apply (block_fields_as_dictionary (mk_state None [] None ∅ true)
           (ln "  NodesDone = 3;") (ln "  NodesDone = 4;")
           (mkLine (txt "NodesDone") (txt "3") [])
           (mkLine (txt "NodesDone") (txt "4") []));
    vm_compute; reflexivity.
Defined.

(** X19: the summary row is exactly as long as the header row above it. *)
Theorem summary_row_aligned (d : DagStatus.t) (cells : list str) :
  collect (map (fun '(k, v) => v d) summary_dict) = Ok cells ->
  length (PyFmt.format_row (txt "  |  ") (summary_col_widths cells) cells)
  = length (PyFmt.format_row (txt "  |  ") (summary_col_widths cells)
              (map fst summary_dict)).
Proof.
  rewrite summary_cells.
  destruct (DagStatus.nodes_running_percent d) as [p|]; [|done].
  intros [= <-].
  rewrite !format_row_length; [done| |];
    unfold summary_col_widths, summary_dict; cbn [map fst zip_with];
    repeat (constructor;
            [first [ apply Nat.le_max_l | apply Nat.le_max_r ]|]);
    constructor.
Qed.

Lemma summary_row_aligned_witness :
  let d := DagStatus.set_node_statuses sample_dag
             [sample_node_a; sample_node_b] in
  let cells := match collect (map (fun '(k, v) => v d) summary_dict) with
               | Ok c => c
               | Raise _ => []
               end in
  collect (map (fun '(k, v) => v d) summary_dict) = Ok cells
  /\ length (PyFmt.format_row (txt "  |  ") (summary_col_widths cells) cells)
     = length (PyFmt.format_row (txt "  |  ") (summary_col_widths cells)
                 (map fst summary_dict)).
Proof.
  split; [vm_compute; reflexivity|].
  apply (summary_row_aligned
           (DagStatus.set_node_statuses sample_dag
              [sample_node_a; sample_node_b])).
  vm_compute. reflexivity.
Defined.

(** ** Counters, from text to integer and back *)

Local Open Scope Z_scope.

Lemma digits_of_uint_acc (d : Decimal.uint) (acc : positive) :
  Py.digits (Z.pos acc) (list_ascii_of_string (NilEmpty.string_of_uint d))
  = Some (Z.pos (Pos.of_uint_acc d acc)).
Proof.
  revert acc.
  induction d as [|d IH|d IH|d IH|d IH|d IH|d IH|d IH|d IH|d IH|d IH];
    intros acc; [done|..];
    cbn [NilEmpty.string_of_uint list_ascii_of_string Py.digits
         Pos.of_uint_acc];
    rewrite <- IH;
    match goal with
    | |- match Py.digit ?c with _ => _ end = _ =>
        change (Py.digit c) with (Some (Z.of_nat (nat_of_ascii c - 48)))
    end;
    cbv beta iota; f_equal; vm_compute Z.of_nat; lia.
Qed.

Lemma digits_of_uint (d : Decimal.uint) :
  Py.digits 0 (list_ascii_of_string (NilEmpty.string_of_uint d))
  = Some (Z.of_N (Pos.of_uint d)).
Proof.
  induction d as [|d IH|d IH|d IH|d IH|d IH|d IH|d IH|d IH|d IH|d IH];
    [done|exact IH|..];
    cbn [NilEmpty.string_of_uint list_ascii_of_string Py.digits Pos.of_uint];
    match goal with
    | |- match Py.digit ?c with _ => _ end = _ =>
        change (Py.digit c) with (Some (Z.of_nat (nat_of_ascii c - 48)))
    end;
    cbv beta iota;
    match goal with
    | |- Py.digits ?a _ = _ =>
        let v := eval vm_compute in a in change a with v
    end;
    apply digits_of_uint_acc.
Qed.

Lemma uint_chars_digits (d : Decimal.uint) :
  forallb is_digit (list_ascii_of_string (NilEmpty.string_of_uint d)) = true.
Proof. induction d; simpl; done. Qed.

Lemma decimal_spec (n : Z) :
  Py.digits 0 (Float.decimal n) = Some (Z.of_N (Z.to_N n))
  /\ forallb is_digit (Float.decimal n) = true
  /\ Float.decimal n <> [].
Proof.
  unfold Float.decimal.
  pose proof (DecimalN.Unsigned.of_to (Z.to_N n)) as E.
  unfold N.of_uint in E.
  destruct (N.to_uint (Z.to_N n)) as [|d|d|d|d|d|d|d|d|d|d] eqn:Ed;
    rewrite <- E;
    (split; [|split; [|done]]);
    first [ done
          | apply digits_of_uint
          | apply uint_chars_digits ].
Qed.

Lemma is_digit_char (c : ascii) :
  is_digit c = true ->
  Py.isspace c = false /\ Ascii.eqb c "-" = false /\ Ascii.eqb c "+" = false.
Proof.
  destruct c as [[] [] [] [] [] [] [] []]; vm_compute; intros H;
    first [ discriminate H | done ].
Qed.

Lemma strip_id (s : str) :
  forallb (fun c => negb (Py.isspace c)) s = true -> Py.strip s = s.
Proof.
  intros H. unfold Py.strip, Py.rstrip.
  assert (forall t, forallb (fun c => negb (Py.isspace c)) t = true ->
            Py.lstrip t = t) as L.
  { intros [|c t]; simpl; [done|].
    intros [Hc _]%andb_true_iff. apply negb_true_iff in Hc. by rewrite Hc. }
  rewrite (L s H), L, rev_involutive; [done|]. by rewrite forallb_rev.
Qed.

Lemma digits_nonspace (s : str) :
  forallb is_digit s = true ->
  forallb (fun c => negb (Py.isspace c)) s = true.
Proof.
  rewrite !forallb_forall. intros H c Hc.
  destruct (is_digit_char c (H c Hc)) as [-> _]. done.
Qed.

Lemma int_str_int (z : Z) : Py.int (PyFmt.str_int z) = Ok z.
Proof.
  unfold PyFmt.str_int, Py.int.
  destruct (Z.ltb_spec z 0) as [Hz|Hz].
  - destruct (decimal_spec (- z)) as (Hd & Hall & Hne).
    rewrite strip_id by (simpl; by apply digits_nonspace).
    simpl. destruct (Float.decimal (- z)) as [|c t]; [done|].
    rewrite Hd. f_equal. lia.
  - destruct (decimal_spec z) as (Hd & Hall & Hne).
    rewrite strip_id by by apply digits_nonspace.
    destruct (Float.decimal z) as [|c t]; [done|].
    simpl in Hall. apply andb_true_iff in Hall as [Hc _].
    destruct (is_digit_char c Hc) as (_ & -> & ->).
    rewrite Hd. f_equal. lia.
Qed.

Local Close Scope Z_scope.

(** X20: the three counters of a node, written as the decimal text [str]
    gives them, are read back by [NodeStatus.__init__] as the same
    integers, so that the "Retries" cell of the table shows the text the
    file holds. *)
Theorem node_counters_round_trip (node node_status status_details : str)
    (retry_count job_procs_queued job_procs_held : Z) :
  exists n,
    NodeStatus.init node node_status status_details
      (PyFmt.str_int retry_count) (PyFmt.str_int job_procs_queued)
      (PyFmt.str_int job_procs_held) = Ok n
    /\ NodeStatus.retry_count n = retry_count
    /\ NodeStatus.job_procs_queued n = job_procs_queued
    /\ NodeStatus.job_procs_held n = job_procs_held
    /\ map (fun '(k, v) => v n) job_dict
       = [strip_doublequotes node; strip_doublequotes node_status;
          PyFmt.str_int retry_count; strip_doublequotes status_details].
Proof.
  unfold NodeStatus.init. rewrite !int_str_int. simpl. eauto 6.
Qed.

(** ** Reading back what the DAG engine writes *)

Lemma safe_notin (s : str) (c : ascii) :
  forallb safe s = true -> existsb (Ascii.eqb c) special = true -> c ∉ s.
Proof.
  intros Hs Hc Hin. rewrite forallb_forall in Hs.
  apply list_elem_of_In, Hs in Hin. unfold safe in Hin.
  by rewrite Hc in Hin.
Qed.

Lemma is_digit_safe (c : ascii) : is_digit c = true -> safe c = true.
Proof.
  destruct c as [[] [] [] [] [] [] [] []]; vm_compute; intros H;
    first [ discriminate H | done ].
Qed.

Lemma str_int_safe (z : Z) : forallb safe (PyFmt.str_int z) = true.
Proof.
  assert (forall n, forallb safe (Float.decimal n) = true) as Hd.
  { intros n. destruct (decimal_spec n) as (_ & H & _).
    rewrite forallb_forall in *. intros c Hc. by apply is_digit_safe, H. }
  unfold PyFmt.str_int. destruct (z <? 0)%Z; [|apply Hd].
  simpl. by rewrite Hd.
Qed.

Lemma str_int_strip (z : Z) : Py.strip (PyFmt.str_int z) = PyFmt.str_int z.
Proof.
  apply strip_id. unfold PyFmt.str_int.
  destruct (decimal_spec z) as (_ & H1 & _).
  destruct (decimal_spec (- z)) as (_ & H2 & _).
  destruct (z <? 0)%Z; simpl; by rewrite digits_nonspace.
Qed.

(** A field line inside a block: what it adds to the dictionary. *)
Lemma step_field (st : parse_state) (k v c : str) :
  store_contents st = true ->
  (forall x, existsb (Ascii.eqb x) (txt "={}") = true -> x ∉ k) ->
  (forall x, existsb (Ascii.eqb x) (txt "=;{}") = true -> x ∉ v) ->
  (forall x, existsb (Ascii.eqb x) (txt "=;{}") = true -> x ∉ c) ->
  Py.nl ∉ k -> Py.nl ∉ v -> Py.nl ∉ c ->
  let t := mkLine (Py.strip k) (strip_doublequotes (Py.strip v))
             (strip_doublequotes (strip_comments (Py.strip c))) in
  step st (" "%char :: k ++ "="%char :: v ++ ";"%char :: c ++ [Py.nl])
  = Ok (mk_state (dag_status st) (node_statuses st) (status_end st)
          (<[key t := t]> (contents st)) true).
Proof.
  intros Hs Hk Hv Hc Nk Nv Nc t.
  pose proof (Hk "{"%char eq_refl) as Ok1. pose proof (Hk "}"%char eq_refl) as Ck1.
  pose proof (Hv "{"%char eq_refl) as Ov1. pose proof (Hv "}"%char eq_refl) as Cv1.
  pose proof (Hc "{"%char eq_refl) as Oc1. pose proof (Hc "}"%char eq_refl) as Cc1.
  apply step_plain; [done| |].
  - unfold plain, opens.
    assert (Py.contains (" "%char :: k ++ "="%char :: v ++ ";"%char
                           :: c ++ [Py.nl]) (txt "}") = false) as ->.
    { apply (contains_char _ "}"%char). notin. }
    assert (Py.contains (" "%char :: k ++ "="%char :: v ++ ";"%char
                           :: c ++ [Py.nl]) (txt "{") = false) as ->.
    { apply (contains_char _ "{"%char). notin. }
    reflexivity.
  - change (" "%char :: k ++ "="%char :: v ++ ";"%char :: c ++ [Py.nl])
      with ((" "%char :: k) ++ "="%char :: (v ++ ";"%char :: c ++ [Py.nl])).
    assert ("="%char ∉ k) as Ek by (apply Hk; reflexivity).
    assert ("="%char ∉ v) as Ev by (apply Hv; reflexivity).
    assert ("="%char ∉ c) as Ec by (apply Hc; reflexivity).
    assert (";"%char ∉ v) as Sv by (apply Hv; reflexivity).
    assert (";"%char ∉ c) as Sc by (apply Hc; reflexivity).
    rewrite interpret_line_one_eq by notin.
    rewrite drop_newlines_cons, (drop_newlines_id k) by done.
    rewrite drop_newlines_app, (drop_newlines_id v) by done.
    rewrite drop_newlines_cons by done.
    rewrite drop_newlines_app, (drop_newlines_id c) by done.
    change (drop_newlines [Py.nl]) with (@nil ascii). rewrite app_nil_r.
    by rewrite line_of_two.
Qed.

Lemma replace_pair_id (a b : ascii) (s : str) :
  a ∉ s -> Py.replace s [a; b] [] = s.
Proof.
  unfold Py.replace. induction s as [|x s IH]; [done|].
  rewrite not_elem_of_cons. intros [Hx Hs].
  rewrite replace_from_pair_here.
  assert (Ascii.eqb x a = false) as -> by (apply Ascii.eqb_neq; congruence).
  simpl. by rewrite IH.
Qed.

Lemma unquote (x : str) :
  Py.dquote ∉ x -> strip_doublequotes (Py.dquote :: x ++ [Py.dquote]) = x.
Proof.
  intros Hx. unfold strip_doublequotes.
  change (Py.dquote :: x ++ [Py.dquote])
    with ([Py.dquote] ++ x ++ [Py.dquote]).
  rewrite !replace_char_app, (replace_char_id x) by done.
  change (Py.replace [Py.dquote] [Py.dquote] []) with (@nil ascii).
  by rewrite app_nil_r.
Qed.

(** The value of a line [K = "x";]. *)
Lemma quoted_value (x : str) :
  Py.dquote ∉ x ->
  strip_doublequotes (Py.strip (" "%char :: Py.dquote :: x ++ [Py.dquote])) = x.
Proof.
  intros Hx.
  change (Py.strip (" "%char :: Py.dquote :: x ++ [Py.dquote]))
    with (Py.strip (Py.dquote :: x ++ [Py.dquote])).
  rewrite strip_trimmed by done. by apply unquote.
Qed.

(** The comment of a line [K = code; /* "x" */]. *)
Lemma quoted_comment (x : str) :
  Py.dquote ∉ x -> "/"%char ∉ x -> "*"%char ∉ x ->
  strip_doublequotes
    (strip_comments
       (Py.strip (txt " /* " ++ Py.dquote :: x ++ Py.dquote :: txt " */")))
  = x.
Proof.
  intros Hq Hs Ha.
  assert (Py.strip (txt " /* " ++ Py.dquote :: x ++ Py.dquote :: txt " */")
          = txt "/* " ++ (Py.dquote :: x ++ [Py.dquote]) ++ txt " */") as ->.
  { change (Py.strip (txt " /* " ++ Py.dquote :: x ++ Py.dquote :: txt " */"))
      with (Py.strip ("/"%char :: txt "* " ++ Py.dquote :: x
                        ++ Py.dquote :: txt " */")).
    replace ("/"%char :: txt "* " ++ Py.dquote :: x ++ Py.dquote :: txt " */")
      with ("/"%char :: (txt "* " ++ Py.dquote :: x ++ Py.dquote :: txt " *")
              ++ ["/"%char])
      by (simpl; by rewrite <- !app_assoc).
    rewrite strip_trimmed by done. simpl. by rewrite <- !app_assoc. }
  rewrite strip_comments_wrapped. unfold strip_comments.
  rewrite (replace_pair_id "/" "*"), (replace_pair_id "*" "/") by notin.
  rewrite strip_trimmed by done. by apply unquote.
Qed.

(** The value of a line [K = z;] for an integer in decimal. *)
Lemma int_value (z : Z) :
  strip_doublequotes (Py.strip (" "%char :: PyFmt.str_int z))
  = PyFmt.str_int z.
Proof.
  change (Py.strip (" "%char :: PyFmt.str_int z))
    with (Py.strip (PyFmt.str_int z)).
  rewrite str_int_strip. apply replace_char_id.
  apply (safe_notin _ _ (str_int_safe z)). reflexivity.
Qed.

(** The side conditions of [step_field] on texts made of literals and
    safe fields. *)
Ltac specials :=
  let x := fresh "x" in
  let Hx := fresh "Hx" in
  intros x Hx; simpl in Hx; rewrite ?orb_true_iff in Hx;
  repeat match type of Hx with
         | _ \/ _ => destruct Hx as [Hx|Hx]
         end;
  first [ discriminate Hx
        | apply Ascii.eqb_eq in Hx; subst x; notin ].

Ltac safe_facts H :=
  pose proof (safe_notin _ "="%char H eq_refl);
  pose proof (safe_notin _ ";"%char H eq_refl);
  pose proof (safe_notin _ "{"%char H eq_refl);
  pose proof (safe_notin _ "}"%char H eq_refl);
  pose proof (safe_notin _ "/"%char H eq_refl);
  pose proof (safe_notin _ "*"%char H eq_refl);
  pose proof (safe_notin _ Py.nl H eq_refl);
  pose proof (safe_notin _ Py.dquote H eq_refl).

Ltac lookup_key :=
  repeat first
    [ rewrite lookup_insert_eq
    | rewrite lookup_empty
    | rewrite lookup_insert_ne
        by (let E := fresh in intros E; vm_compute in E; discriminate E) ].

Lemma node_record_run (name code status details : str) (rc jq jh : Z) :
  forallb safe name = true -> forallb safe code = true ->
  forallb safe status = true -> forallb safe details = true ->
  run initial (block_lines (node_record_block name code status details
                              rc jq jh))
  = Ok (mk_state None [NodeStatus.mk name status details rc jq jh] None
          ∅ false).
Proof.
  intros Hn Hc Hs Hd.
  safe_facts Hn. safe_facts Hc. safe_facts Hs. safe_facts Hd.
  safe_facts (str_int_safe rc). safe_facts (str_int_safe jq).
  safe_facts (str_int_safe jh).
  unfold block_lines, node_record_block. cbn [body close app].
  cbn [run]. 
  change (step initial (ln "[")) with (Ok (set_store initial true)).
  cbn [mbind result_bind].
  replace (txt "  Type = " ++ quoted "NodeStatus" ++ ln ";")
    with (" "%char :: txt " Type " ++ "="%char :: (" "%char :: quoted "NodeStatus")
            ++ ";"%char :: [] ++ [Py.nl]) by reflexivity.
  rewrite step_field by first [done | specials | notin].
  cbn [mbind result_bind].
  replace (txt "  Node = " ++ Py.dquote :: name ++ Py.dquote :: ln ";")
    with (" "%char :: txt " Node " ++ "="%char
            :: (" "%char :: Py.dquote :: name ++ [Py.dquote])
            ++ ";"%char :: [] ++ [Py.nl])
    by (unfold txt, ln; simpl; by rewrite <- ?app_assoc).
  rewrite step_field by first [done | specials | notin].
  cbn [mbind result_bind].
  replace (txt "  NodeStatus = " ++ code ++ txt "; /* "
             ++ Py.dquote :: status ++ Py.dquote :: ln " */")
    with (" "%char :: txt " NodeStatus " ++ "="%char
            :: (" "%char :: code)
            ++ ";"%char
            :: (txt " /* " ++ Py.dquote :: status ++ Py.dquote :: txt " */")
            ++ [Py.nl])
    by (unfold txt, ln; simpl; by rewrite <- ?app_assoc).
  rewrite step_field by first [done | specials | notin].
  cbn [mbind result_bind].
  replace (txt "  StatusDetails = " ++ Py.dquote :: details
             ++ Py.dquote :: ln ";")
    with (" "%char :: txt " StatusDetails " ++ "="%char
            :: (" "%char :: Py.dquote :: details ++ [Py.dquote])
            ++ ";"%char :: [] ++ [Py.nl])
    by (unfold txt, ln; simpl; by rewrite <- ?app_assoc).
  rewrite step_field by first [done | specials | notin].
  cbn [mbind result_bind].
  replace (txt "  RetryCount = " ++ PyFmt.str_int rc ++ ln ";")
    with (" "%char :: txt " RetryCount " ++ "="%char
            :: (" "%char :: PyFmt.str_int rc) ++ ";"%char :: [] ++ [Py.nl])
    by (unfold txt, ln; simpl; by rewrite <- ?app_assoc).
  rewrite step_field by first [done | specials | notin].
  cbn [mbind result_bind].
  replace (txt "  JobProcsQueued = " ++ PyFmt.str_int jq ++ ln ";")
    with (" "%char :: txt " JobProcsQueued " ++ "="%char
            :: (" "%char :: PyFmt.str_int jq) ++ ";"%char :: [] ++ [Py.nl])
    by (unfold txt, ln; simpl; by rewrite <- ?app_assoc).
  rewrite step_field by first [done | specials | notin].
  cbn [mbind result_bind].
  replace (txt "  JobProcsHeld = " ++ PyFmt.str_int jh ++ ln ";")
    with (" "%char :: txt " JobProcsHeld " ++ "="%char
            :: (" "%char :: PyFmt.str_int jh) ++ ";"%char :: [] ++ [Py.nl])
    by (unfold txt, ln; simpl; by rewrite <- ?app_assoc).
  rewrite step_field by first [done | specials | notin].
  cbn [mbind result_bind].
  rewrite step_closes by reflexivity.
  cbn [key value comment dag_status node_statuses status_end contents
       set_store initial].
  rewrite !quoted_value, quoted_comment, !int_value by done.
  change (Py.strip (txt " Type ")) with (txt "Type").
  change (Py.strip (txt " Node ")) with (txt "Node").
  change (Py.strip (txt " NodeStatus ")) with (txt "NodeStatus").
  change (Py.strip (txt " StatusDetails ")) with (txt "StatusDetails").
  change (Py.strip (txt " RetryCount ")) with (txt "RetryCount").
  change (Py.strip (txt " JobProcsQueued ")) with (txt "JobProcsQueued").
  change (Py.strip (txt " JobProcsHeld ")) with (txt "JobProcsHeld").
  change (strip_doublequotes (Py.strip (" "%char :: quoted "NodeStatus")))
    with (txt "NodeStatus").
  unfold close_block. cbn [contents].
  rewrite !getitem_lookup. lookup_key. cbn [mbind result_bind value].
  rewrite (decide_False (P := txt "NodeStatus" = txt "DagStatus"))
    by (intros E; vm_compute in E; discriminate E).
  rewrite (decide_True (P := txt "NodeStatus" = txt "NodeStatus")) by done.
  cbn [value comment]. unfold NodeStatus.init.
  rewrite !int_str_int.
  cbn [mbind result_bind mret result_ret dag_status node_statuses status_end
       app].
  unfold strip_doublequotes. rewrite !replace_char_id by done.
  reflexivity.
Qed.

(** X21: a file made of the blocks the DAG engine writes for a list of
    node records is read back as exactly these records, in the same
    order: names, statuses and details made of safe characters lose
    their quotes and comment markers and nothing else, and the counters
    keep their values. *)
Theorem node_records_round_trip (code : str) (records : list NodeStatus.t) :
  forallb safe code = true ->
  forallb safe_node records = true ->
  run initial (file_of (map (block_of_node code) records) [])
  = Ok (mk_state None records None ∅ false).
Proof.
  intros Hcode. unfold file_of. rewrite app_nil_r.
  induction records as [|n records IH]; [done|].
  cbn [map flat_map forallb]. unfold safe_node at 1.
  intros [[[Hn Hs]%andb_true_iff Hd]%andb_true_iff Hrest]%andb_true_iff.
  rewrite run_app.
  change (block_lines (block_of_node code n))
    with (block_lines
            (node_record_block (NodeStatus.node n) code
               (NodeStatus.node_status n) (NodeStatus.status_details n)
               (NodeStatus.retry_count n) (NodeStatus.job_procs_queued n)
               (NodeStatus.job_procs_held n))).
  rewrite node_record_run by done. cbn [mbind result_bind].
  change (mk_state None
            [NodeStatus.mk (NodeStatus.node n) (NodeStatus.node_status n)
               (NodeStatus.status_details n) (NodeStatus.retry_count n)
               (NodeStatus.job_procs_queued n) (NodeStatus.job_procs_held n)]
            None ∅ false)
    with (with_frame
            (mk_frame None
               [NodeStatus.mk (NodeStatus.node n) (NodeStatus.node_status n)
                  (NodeStatus.status_details n) (NodeStatus.retry_count n)
                  (NodeStatus.job_procs_queued n)
                  (NodeStatus.job_procs_held n)] None)
            initial).
  rewrite run_frame, (IH Hrest). by destruct n.
Qed.

Lemma node_records_round_trip_witness :
  (forallb safe (txt "3") = true
   /\ forallb safe_node [sample_node_a; sample_node_b] = true)
  /\ run initial
       (file_of (map (block_of_node (txt "3")) [sample_node_a; sample_node_b])
          [])
     = Ok (mk_state None [sample_node_a; sample_node_b] None ∅ false).
Proof.
  split; [split; reflexivity|].
  apply (node_records_round_trip (txt "3") [sample_node_a; sample_node_b]);
    reflexivity.
Defined.
